(** * apisix-python-client: the Admin and Control clients

    A shallow embedding of [src/admin.py] and [src/control.py].  Both classes
    keep three attributes set by [__init__] and funnel every public method
    through a private [_make_request], which calls one function of the
    third-party [requests] package.  The package is not part of the
    repository: the network it talks to is a parameter ([requests.Env]), and
    the two methods of its [Response] the clients call, [raise_for_status]
    and [json], follow the package's documented behaviour. *)

From Stdlib Require Import ZArith String Ascii List Bool Lia DecimalString.
Import ListNotations.
Open Scope string_scope.

(** ** Python text operations *)

Definition slash : ascii := "/"%char.
Definition qmark : ascii := "?"%char.

(** [str.upper].  Python text is kept as its UTF-8 bytes.  The ASCII
    letters are mapped one by one; the characters outside ASCII whose upper
    case is made of ASCII letters only are mapped as Python maps them:
    U+00DF to SS, U+0131 to I, U+017F to S, and the ligatures U+FB00 to
    U+FB06 to FF, FI, FL, FFI, FFL, ST and ST.  Every other character outside
    ASCII is left as it is, where Python may give another one: its upper case
    has a character outside ASCII too, so the result equals an ASCII word
    here exactly when it does in Python, and the clients only ever compare
    it with ASCII words. *)
Definition upper_char (c : ascii) : ascii :=
  if (("a" <=? c) && (c <=? "z"))%char
  then ascii_of_nat (nat_of_ascii c - 32)
  else c.

(** The two-byte characters U+00DF, U+0131 and U+017F. *)
Definition upper_two_bytes (a b : ascii) : option string :=
  match N_of_ascii a, N_of_ascii b with
  | 195%N, 159%N => Some "SS"
  | 196%N, 177%N => Some "I"
  | 197%N, 191%N => Some "S"
  | _, _ => None
  end.

(** The three-byte characters U+FB00 to U+FB06. *)
Definition upper_three_bytes (a b c : ascii) : option string :=
  match N_of_ascii a, N_of_ascii b, N_of_ascii c with
  | 239%N, 172%N, 128%N => Some "FF"
  | 239%N, 172%N, 129%N => Some "FI"
  | 239%N, 172%N, 130%N => Some "FL"
  | 239%N, 172%N, 131%N => Some "FFI"
  | 239%N, 172%N, 132%N => Some "FFL"
  | 239%N, 172%N, 133%N => Some "ST"
  | 239%N, 172%N, 134%N => Some "ST"
  | _, _, _ => None
  end.

Fixpoint upper (s : string) : string :=
  match s with
  | EmptyString => EmptyString
  | String a s1 =>
      let plain := String (upper_char a) (upper s1) in
      match s1 with
      | EmptyString => plain
      | String b s2 =>
          match upper_two_bytes a b with
          | Some w => w ++ upper s2
          | None =>
              match s2 with
              | EmptyString => plain
              | String c s3 =>
                  match upper_three_bytes a b c with
                  | Some w => w ++ upper s3
                  | None => plain
                  end
              end
          end
      end
  end.

(** [s.lstrip(c)] for a one-character argument. *)
Fixpoint lstrip (c : ascii) (s : string) : string :=
  match s with
  | EmptyString => EmptyString
  | String a s' => if Ascii.eqb a c then lstrip c s' else s
  end.

(** [s.rstrip(c)] for a one-character argument. *)
Fixpoint rstrip (c : ascii) (s : string) : string :=
  match s with
  | EmptyString => EmptyString
  | String a s' =>
      match rstrip c s' with
      | EmptyString => if Ascii.eqb a c then EmptyString else String a EmptyString
      | r => String a r
      end
  end.

(** [str(n)] for an [int]. *)
Definition str_int (n : Z) : string := NilZero.string_of_int (Z.to_int n).

(** [needle in s]. *)
Fixpoint contains (needle s : string) : bool :=
  prefix needle s ||
  match s with
  | EmptyString => false
  | String _ s' => contains needle s'
  end.

Definition starts_with (c : ascii) (s : string) : bool :=
  match s with
  | EmptyString => false
  | String a _ => Ascii.eqb a c
  end.

Fixpoint ends_with (c : ascii) (s : string) : bool :=
  match s with
  | EmptyString => false
  | String a EmptyString => Ascii.eqb a c
  | String _ s' => ends_with c s'
  end.

(** Number of occurrences of the character [c] in [s]. *)
Fixpoint count_char (c : ascii) (s : string) : nat :=
  match s with
  | EmptyString => 0
  | String a s' => (if Ascii.eqb a c then 1 else 0) + count_char c s'
  end.

(** Number of positions of [s] where a slash is followed by a slash. *)
Fixpoint double_slashes (s : string) : nat :=
  match s with
  | EmptyString => 0
  | String a s' =>
      (if Ascii.eqb a slash && starts_with slash s' then 1 else 0)
      + double_slashes s'
  end.

(** ** JSON values, as [json.loads] hands them to Python *)

#[warnings="-register-all"]
Inductive json : Type :=
| JNull
| JBool (b : bool)
| JNum (n : Z)
| JStr (s : string)
| JList (l : list json)
| JDict (d : list (string * json)).

(** A [dict] is kept as its items in order; [dict_get] is the lookup. *)
Fixpoint dict_get (key : string) (d : list (string * json)) : option json :=
  match d with
  | [] => None
  | (k, v) :: d' => if String.eqb k key then Some v else dict_get key d'
  end.

(** ** The [requests] package, as far as the clients use it *)

Module requests.

(** The module-level functions [requests.get], [.post], [.put], [.delete]
    and [.patch]. *)
Inductive Method := GET | POST | PUT | DELETE | PATCH.

(** One call of such a function: the URL, the [headers=] mapping and the
    [json=] argument ([None] when the argument is not passed or is
    [None]). *)
Record Request := {
  method : Method;
  url : string;
  headers : list (string * string);
  json_arg : option json
}.

(** What [Response.json()] finds in the body. *)
Inductive Decoded :=
| Parsed (v : json)
| Malformed (err : string).

Record Response := {
  status_code : Z;
  reason : string;
  resp_url : string;
  text : string;
  body : Decoded
}.

(** The subclasses of [requests.exceptions.RequestException]. *)
Inductive Kind :=
| ConnectionError_  (* DNS failure, refused or reset connection *)
| Timeout
| SSLError
| HTTPError
| JSONDecodeError_
| OtherRequestException.

Record RequestException := {
  kind : Kind;
  str : string;
  response : option Response
}.

(** The network: the answer to a request is a response or a failure that
    [requests] reports with one of its own exceptions.  A call that fails
    before that with another exception (a [UnicodeEncodeError] for a header
    value outside latin-1, say) is not an answer of this model.
    [json_errors_wrapped] tells whether [Response.json()] raises
    [requests.exceptions.JSONDecodeError] (requests 2.27 and later) or the
    decoder's own [ValueError] subclass (setup.py allows 2.25 and 2.26). *)
Record Env := {
  send : Request -> Response + RequestException;
  json_errors_wrapped : bool
}.

(** [Response.raise_for_status()]: an [HTTPError] for 400..599, nothing
    otherwise. *)
Definition http_error_msg (r : Response) : option string :=
  if ((400 <=? status_code r) && (status_code r <? 500))%Z then
    Some (str_int (status_code r) ++ " Client Error: " ++ reason r
          ++ " for url: " ++ resp_url r)
  else if ((500 <=? status_code r) && (status_code r <? 600))%Z then
    Some (str_int (status_code r) ++ " Server Error: " ++ reason r
          ++ " for url: " ++ resp_url r)
  else None.

Definition status_error (r : Response) : option RequestException :=
  match http_error_msg r with
  | Some msg => Some {| kind := HTTPError; str := msg; response := Some r |}
  | None => None
  end.

End requests.

(** ** Exceptions and the client monad *)

(** The exceptions that can be in flight inside or outside [_make_request].
    [ConnectionError] is the builtin one; raised inside an [except] block it
    keeps the caught exception as its [__context__].  [ValueError] is the
    one the dispatchers raise themselves; [JSONDecodeError], the decoder's,
    is a subclass of it in Python and is kept apart here. *)
Inductive exn :=
| ValueError (msg : string)
| ConnectionError (msg : string) (context : requests.RequestException)
| AttributeError (msg : string)
| JSONDecodeError (msg : string)
| RequestError (e : requests.RequestException).

Inductive Result (A : Type) :=
| Ok (a : A)
| Raise (e : exn).
Arguments Ok {A} a.
Arguments Raise {A} e.

(** The attributes of an [Admin] or [Control] instance. *)
Record Client := {
  base_url : string;
  api_key : string;
  headers : list (string * string)
}.

(** What a method call leaves behind: its result, the instance afterwards and
    the calls it made into [requests], oldest first. *)
Record Outcome (A : Type) := {
  result : Result A;
  self_after : Client;
  sent : list requests.Request
}.
Arguments result {A} o.
Arguments self_after {A} o.
Arguments sent {A} o.

Definition M (A : Type) : Type := Client -> Outcome A.

Definition ret {A} (a : A) : M A :=
  fun self => {| result := Ok a; self_after := self; sent := [] |}.

Definition raise {A} (e : exn) : M A :=
  fun self => {| result := Raise e; self_after := self; sent := [] |}.

Definition bind {A B} (m : M A) (f : A -> M B) : M B :=
  fun self =>
    let o := m self in
    match result o with
    | Ok a =>
        let o' := f a (self_after o) in
        {| result := result o'; self_after := self_after o';
           sent := sent o ++ sent o' |}
    | Raise e =>
        {| result := Raise e; self_after := self_after o; sent := sent o |}
    end.

Notation "x <- m ;; k" := (bind m (fun x => k))
  (at level 61, m at next level, right associativity).

(** Reading [self]. *)
Definition get_self : M Client :=
  fun self => {| result := Ok self; self_after := self; sent := [] |}.

(** [try: body except requests.exceptions.RequestException as e: handler]. *)
Definition try_except_RequestException {A}
    (body : M A) (handler : requests.RequestException -> M A) : M A :=
  fun self =>
    let o := body self in
    match result o with
    | Raise (RequestError e) =>
        let o' := handler e (self_after o) in
        {| result := result o'; self_after := self_after o';
           sent := sent o ++ sent o' |}
    | _ => o
    end.

(** ** Calls into [requests] *)

Section Transport.
Variable env : requests.Env.

Definition request (req : requests.Request) : M requests.Response :=
  fun self =>
    {| result := match requests.send env req with
                 | inl r => Ok r
                 | inr e => Raise (RequestError e)
                 end;
       self_after := self;
       sent := [req] |}.

Definition requests_get (url : string) (hs : list (string * string))
  : M requests.Response :=
  request {| requests.method := requests.GET; requests.url := url;
             requests.headers := hs; requests.json_arg := None |}.

Definition requests_post (url : string) (hs : list (string * string))
    (data : option json) : M requests.Response :=
  request {| requests.method := requests.POST; requests.url := url;
             requests.headers := hs; requests.json_arg := data |}.

Definition requests_put (url : string) (hs : list (string * string))
    (data : option json) : M requests.Response :=
  request {| requests.method := requests.PUT; requests.url := url;
             requests.headers := hs; requests.json_arg := data |}.

Definition requests_delete (url : string) (hs : list (string * string))
  : M requests.Response :=
  request {| requests.method := requests.DELETE; requests.url := url;
             requests.headers := hs; requests.json_arg := None |}.

Definition requests_patch (url : string) (hs : list (string * string))
    (data : option json) : M requests.Response :=
  request {| requests.method := requests.PATCH; requests.url := url;
             requests.headers := hs; requests.json_arg := data |}.

(** [response.raise_for_status()]. *)
Definition raise_for_status (r : requests.Response) : M unit :=
  match requests.status_error r with
  | Some e => raise (RequestError e)
  | None => ret tt
  end.

(** [response.json()]. *)
Definition response_json (r : requests.Response) : M json :=
  match requests.body r with
  | requests.Parsed v => ret v
  | requests.Malformed err =>
      if requests.json_errors_wrapped env
      then raise (RequestError {| requests.kind := requests.JSONDecodeError_;
                                  requests.str := err;
                                  requests.response := None |})
      else raise (JSONDecodeError err)
  end.

End Transport.

(** The name Python gives the type of a decoded value. *)
Definition type_name (v : json) : string :=
  match v with
  | JNull => "NoneType"
  | JBool _ => "bool"
  | JNum _ => "int"
  | JStr _ => "str"
  | JList _ => "list"
  | JDict _ => "dict"
  end.

(** [value.get(key, default)]: only a [dict] has the method. *)
Definition py_get (v : json) (key : string) (default : json) : M json :=
  match v with
  | JDict d =>
      ret (match dict_get key d with Some x => x | None => default end)
  | _ =>
      raise (AttributeError
               ("'" ++ type_name v ++ "' object has no attribute 'get'"))
  end.

(** [response.get('node', {}).get('nodes', [])]. *)
Definition unwrap_nodes (response : json) : M json :=
  node <- py_get response "node" (JDict []) ;;
  py_get node "nodes" (JList []).

(** The body of [__init__], the same in both classes. *)
Definition new_client (base_url0 api_key0 : string) : Client :=
  {| base_url := rstrip slash base_url0;
     api_key := api_key0;
     headers := [("Content-Type", "application/json");
                 ("X-API-KEY", api_key0)] |}.

(** ** class Admin *)

Module Admin.

Definition __init__ (base_url api_key : string) : Client :=
  new_client base_url api_key.

Section Methods.
Variable env : requests.Env.

Definition _make_request (method endpoint : string) (data : option json)
  : M json :=
  self <- get_self ;;
  let url := base_url self ++ "/" ++ lstrip slash endpoint in
  try_except_RequestException
    (response <-
       (if upper method =? "GET" then
          requests_get env url (headers self)
        else if upper method =? "POST" then
          requests_post env url (headers self) data
        else if upper method =? "PUT" then
          requests_put env url (headers self) data
        else if upper method =? "DELETE" then
          requests_delete env url (headers self)
        else if upper method =? "PATCH" then
          requests_patch env url (headers self) data
        else
          raise (ValueError ("Unsupported HTTP method: " ++ method))) ;;
     _ <- raise_for_status response ;;
     response_json env response)
    (fun e =>
       raise (ConnectionError
                ("Error connecting to APISIX: " ++ requests.str e) e)).

(** Routes API *)

Definition list_routes : M json :=
  response <- _make_request "GET" "/routes" None ;;
  unwrap_nodes response.

Definition get_route (route_id : string) : M json :=
  _make_request "GET" ("/routes/" ++ route_id) None.

Definition create_route (route_config : json) (ttl : option Z) : M json :=
  match ttl with
  | Some ttl =>
      _make_request "POST" ("/routes?ttl=" ++ str_int ttl) (Some route_config)
  | None =>
      _make_request "POST" "/routes" (Some route_config)
  end.

Definition update_route (route_id : string) (route_config : json) (ttl : option Z)
  : M json :=
  match ttl with
  | Some ttl =>
      _make_request "PATCH" ("/routes/" ++ route_id ++ "?ttl=" ++ str_int ttl)
        (Some route_config)
  | None =>
      _make_request "PATCH" ("/routes/" ++ route_id) (Some route_config)
  end.

Definition update_route_with_path (route_id route_path : string) (route_config : json) (ttl : option Z)
  : M json :=
  match ttl with
  | Some ttl =>
      _make_request "PATCH"
        ("/routes/" ++ route_id ++ "/" ++ route_path ++ "?ttl=" ++ str_int ttl) (Some route_config)
  | None =>
      _make_request "PATCH" ("/routes/" ++ route_id ++ "/" ++ route_path)
        (Some route_config)
  end.

Definition create_route_with_id (route_id : string) (route_config : json) (ttl : option Z)
  : M json :=
  match ttl with
  | Some ttl =>
      _make_request "PUT" ("/routes/" ++ route_id ++ "?ttl=" ++ str_int ttl)
        (Some route_config)
  | None =>
      _make_request "PUT" ("/routes/" ++ route_id) (Some route_config)
  end.

Definition delete_route (route_id : string) : M json :=
  _make_request "DELETE" ("/routes/" ++ route_id) None.

Definition list_services : M json :=
  response <- _make_request "GET" "/services" None ;;
  unwrap_nodes response.

Definition get_service (service_id : string) : M json :=
  _make_request "GET" ("/services/" ++ service_id) None.

Definition create_service (service_config : json) : M json :=
  _make_request "POST" "/services" (Some service_config).

Definition update_service (service_id : string) (service_config : json)
  : M json :=
  _make_request "PATCH" ("/services/" ++ service_id) (Some service_config).

Definition update_service_with_path (service_id service_path : string) (service_config : json)
  : M json :=
  _make_request "PATCH" ("/services/" ++ service_id ++ "/" ++ service_path)
    (Some service_config).

Definition create_service_with_id (service_id : string) (service_config : json)
  : M json :=
  _make_request "PUT" ("/services/" ++ service_id) (Some service_config).

Definition delete_service (service_id : string) : M json :=
  _make_request "DELETE" ("/services/" ++ service_id) None.

(** Consumer API *)

Definition list_consumers : M json :=
  response <- _make_request "GET" "/consumers" None ;;
  unwrap_nodes response.

Definition get_consumer (username : string) : M json :=
  _make_request "GET" ("/consumers/" ++ username) None.

Definition create_consumer (consumer_config : json) : M json :=
  _make_request "POST" "/consumers" (Some consumer_config).

Definition update_consumer (username : string) (consumer_config : json)
  : M json :=
  _make_request "PUT" ("/consumers/" ++ username) (Some consumer_config).

Definition delete_consumer (username : string) : M json :=
  _make_request "DELETE" ("/consumers/" ++ username) None.

(** Credential API *)

Definition list_consumer_credentials (username : string) : M json :=
  _make_request "GET" ("/consumers/" ++ username ++ "/credentials") None.

Definition get_consumer_credential (username credential_id : string)
  : M json :=
  _make_request "GET"
    ("/consumers/" ++ username ++ "/credentials/" ++ credential_id) None.

Definition create_or_update_consumer_credential (username credential_id : string) (credential_config : json)
  : M json :=
  _make_request "PUT"
    ("/consumers/" ++ username ++ "/credentials/" ++ credential_id) (Some credential_config).

Definition delete_consumer_credential (username credential_id : string)
  : M json :=
  _make_request "DELETE"
    ("/consumers/" ++ username ++ "/credentials/" ++ credential_id) None.

(** Upstream API *)

Definition list_upstreams : M json :=
  response <- _make_request "GET" "/upstreams" None ;;
  unwrap_nodes response.

Definition get_upstream (upstream_id : string) : M json :=
  _make_request "GET" ("/upstreams/" ++ upstream_id) None.

Definition create_upstream_with_id (upstream_id : string) (upstream_config : json)
  : M json :=
  _make_request "PUT" ("/upstreams/" ++ upstream_id) (Some upstream_config).

Definition create_upstream (upstream_config : json) : M json :=
  _make_request "POST" "/upstreams" (Some upstream_config).

Definition update_upstream (upstream_id : string) (upstream_config : json)
  : M json :=
  _make_request "PATCH" ("/upstreams/" ++ upstream_id) (Some upstream_config).

Definition update_upstream_with_path (upstream_id path : string) (upstream_config : json)
  : M json :=
  _make_request "PATCH" ("/upstreams/" ++ upstream_id ++ "/" ++ path)
    (Some upstream_config).

Definition delete_upstream (upstream_id : string) : M json :=
  _make_request "DELETE" ("/upstreams/" ++ upstream_id) None.

(** SSL API *)

Definition list_ssl : M json :=
  response <- _make_request "GET" "/ssl" None ;;
  unwrap_nodes response.

Definition get_ssl (ssl_id : string) : M json :=
  _make_request "GET" ("/ssl/" ++ ssl_id) None.

Definition create_ssl (ssl_config : json) : M json :=
  _make_request "POST" "/ssl" (Some ssl_config).

Definition update_ssl (ssl_id : string) (ssl_config : json) : M json :=
  _make_request "PUT" ("/ssl/" ++ ssl_id) (Some ssl_config).

Definition delete_ssl (ssl_id : string) : M json :=
  _make_request "DELETE" ("/ssl/" ++ ssl_id) None.

(** Global Rules API *)

Definition list_global_rules : M json :=
  response <- _make_request "GET" "/global_rules" None ;;
  unwrap_nodes response.

Definition get_global_rule (rule_id : string) : M json :=
  _make_request "GET" ("/global_rules/" ++ rule_id) None.

Definition create_global_rule_with_id (rule_id : string) (rule_config : json)
  : M json :=
  _make_request "PUT" ("/global_rules/" ++ rule_id) (Some rule_config).

Definition delete_global_rule (rule_id : string) : M json :=
  _make_request "DELETE" ("/global_rules/" ++ rule_id) None.

Definition update_global_rule (rule_id : string) (rule_config : json)
  : M json :=
  _make_request "PATCH" ("/global_rules/" ++ rule_id) (Some rule_config).

Definition update_global_rule_with_path (rule_id path : string) (rule_config : json)
  : M json :=
  _make_request "PATCH" ("/global_rules/" ++ rule_id ++ "/" ++ path)
    (Some rule_config).

(** Consumer Groups API *)

Definition list_consumer_groups : M json :=
  response <- _make_request "GET" "/consumer_groups" None ;;
  unwrap_nodes response.

Definition get_consumer_group (group_id : string) : M json :=
  _make_request "GET" ("/consumer_groups/" ++ group_id) None.

Definition create_consumer_group_with_id (group_id : string) (group_config : json)
  : M json :=
  _make_request "PUT" ("/consumer_groups/" ++ group_id) (Some group_config).

Definition delete_consumer_group (group_id : string) : M json :=
  _make_request "DELETE" ("/consumer_groups/" ++ group_id) None.

Definition update_consumer_group (group_id : string) (group_config : json)
  : M json :=
  _make_request "PATCH" ("/consumer_groups/" ++ group_id) (Some group_config).

Definition update_consumer_group_with_path (group_id path : string) (group_config : json)
  : M json :=
  _make_request "PATCH" ("/consumer_groups/" ++ group_id ++ "/" ++ path)
    (Some group_config).

(** Plugin Configs API *)

Definition list_plugin_configs : M json :=
  response <- _make_request "GET" "/plugin_configs" None ;;
  unwrap_nodes response.

Definition get_plugin_config (config_id : string) : M json :=
  _make_request "GET" ("/plugin_configs/" ++ config_id) None.

Definition create_plugin_config_with_id (config_id : string) (config : json)
  : M json :=
  _make_request "PUT" ("/plugin_configs/" ++ config_id) (Some config).

Definition delete_plugin_config (config_id : string) : M json :=
  _make_request "DELETE" ("/plugin_configs/" ++ config_id) None.

Definition update_plugin_config (config_id : string) (config : json)
  : M json :=
  _make_request "PATCH" ("/plugin_configs/" ++ config_id) (Some config).

Definition update_plugin_config_with_path (config_id path : string) (config : json)
  : M json :=
  _make_request "PATCH" ("/plugin_configs/" ++ config_id ++ "/" ++ path)
    (Some config).

(** Plugin Metadata API *)

Definition get_plugin_metadata (plugin_name : string) : M json :=
  _make_request "GET" ("/plugin_metadata/" ++ plugin_name) None.

Definition create_plugin_metadata (plugin_name : string) (metadata : json)
  : M json :=
  _make_request "PUT" ("/plugin_metadata/" ++ plugin_name) (Some metadata).

Definition delete_plugin_metadata (plugin_name : string) : M json :=
  _make_request "DELETE" ("/plugin_metadata/" ++ plugin_name) None.

(** Plugins API *)

Definition list_plugins : M json :=
  response <- _make_request "GET" "/plugins/list" None ;;
  unwrap_nodes response.

Definition get_plugin (plugin_name : string) : M json :=
  _make_request "GET" ("/plugins/" ++ plugin_name) None.

Definition get_all_plugins_properties : M json :=
  _make_request "GET" "/plugins?all=true" None.

Definition get_all_stream_plugins_properties : M json :=
  _make_request "GET" "/plugins?all=true&subsystem=stream" None.

Definition get_all_http_plugins_properties : M json :=
  _make_request "GET" "/plugins?all=true&subsystem=http" None.

Definition reload_plugins : M json :=
  _make_request "PUT" "/plugins/reload" None.

Definition get_plugin_properties (plugin_name : string) (subsystem : option string)
  : M json :=
  match subsystem with
  | Some (String _ _ as subsystem) =>
      _make_request "GET"
        ("/plugins/" ++ plugin_name ++ "?subsystem=" ++ subsystem) None
  | _ =>
      _make_request "GET" ("/plugins/" ++ plugin_name) None
  end.

(** Stream Routes API *)

Definition list_stream_routes : M json :=
  response <- _make_request "GET" "/stream_routes" None ;;
  unwrap_nodes response.

Definition get_stream_route (route_id : string) : M json :=
  _make_request "GET" ("/stream_routes/" ++ route_id) None.

Definition create_stream_route_with_id (route_id : string) (route_config : json)
  : M json :=
  _make_request "PUT" ("/stream_routes/" ++ route_id) (Some route_config).

Definition create_stream_route (route_config : json) : M json :=
  _make_request "POST" "/stream_routes" (Some route_config).

Definition delete_stream_route (route_id : string) : M json :=
  _make_request "DELETE" ("/stream_routes/" ++ route_id) None.

(** Secrets API *)

Definition list_secrets : M json :=
  response <- _make_request "GET" "/secrets" None ;;
  unwrap_nodes response.

Definition get_secret (manager secret_id : string) : M json :=
  _make_request "GET" ("/secrets/" ++ manager ++ "/" ++ secret_id) None.

Definition create_secret (manager : string) (secret_config : json) : M json :=
  _make_request "PUT" ("/secrets/" ++ manager) (Some secret_config).

Definition delete_secret (manager secret_id : string) : M json :=
  _make_request "DELETE" ("/secrets/" ++ manager ++ "/" ++ secret_id) None.

Definition update_secret (manager secret_id : string) (secret_config : json)
  : M json :=
  _make_request "PATCH" ("/secrets/" ++ manager ++ "/" ++ secret_id)
    (Some secret_config).

Definition update_secret_with_path (manager secret_id path : string) (secret_config : json)
  : M json :=
  _make_request "PATCH"
    ("/secrets/" ++ manager ++ "/" ++ secret_id ++ "/" ++ path) (Some secret_config).

(** Protos API *)

Definition list_protos : M json :=
  response <- _make_request "GET" "/protos" None ;;
  unwrap_nodes response.

Definition get_proto (proto_id : string) : M json :=
  _make_request "GET" ("/protos/" ++ proto_id) None.

Definition create_proto_with_id (proto_id : string) (proto_config : json)
  : M json :=
  _make_request "PUT" ("/protos/" ++ proto_id) (Some proto_config).

Definition create_proto (proto_config : json) : M json :=
  _make_request "POST" "/protos" (Some proto_config).

Definition delete_proto (proto_id : string) : M json :=
  _make_request "DELETE" ("/protos/" ++ proto_id) None.

(** Schema Validation API *)

Definition validate_resource_schema (resource : string) (config : json)
  : M json :=
  _make_request "POST" ("/schema/validate/" ++ resource) (Some config).

End Methods.

(** The public methods, one constructor each. *)
Inductive Call :=
| call_list_routes
| call_get_route (route_id : string)
| call_create_route (route_config : json) (ttl : option Z)
| call_update_route (route_id : string) (route_config : json) (ttl : option Z)
| call_update_route_with_path (route_id route_path : string) (route_config : json) (ttl : option Z)
| call_create_route_with_id (route_id : string) (route_config : json) (ttl : option Z)
| call_delete_route (route_id : string)
| call_list_services
| call_get_service (service_id : string)
| call_create_service (service_config : json)
| call_update_service (service_id : string) (service_config : json)
| call_update_service_with_path (service_id service_path : string) (service_config : json)
| call_create_service_with_id (service_id : string) (service_config : json)
| call_delete_service (service_id : string)
| call_list_consumers
| call_get_consumer (username : string)
| call_create_consumer (consumer_config : json)
| call_update_consumer (username : string) (consumer_config : json)
| call_delete_consumer (username : string)
| call_list_consumer_credentials (username : string)
| call_get_consumer_credential (username credential_id : string)
| call_create_or_update_consumer_credential (username credential_id : string) (credential_config : json)
| call_delete_consumer_credential (username credential_id : string)
| call_list_upstreams
| call_get_upstream (upstream_id : string)
| call_create_upstream_with_id (upstream_id : string) (upstream_config : json)
| call_create_upstream (upstream_config : json)
| call_update_upstream (upstream_id : string) (upstream_config : json)
| call_update_upstream_with_path (upstream_id path : string) (upstream_config : json)
| call_delete_upstream (upstream_id : string)
| call_list_ssl
| call_get_ssl (ssl_id : string)
| call_create_ssl (ssl_config : json)
| call_update_ssl (ssl_id : string) (ssl_config : json)
| call_delete_ssl (ssl_id : string)
| call_list_global_rules
| call_get_global_rule (rule_id : string)
| call_create_global_rule_with_id (rule_id : string) (rule_config : json)
| call_delete_global_rule (rule_id : string)
| call_update_global_rule (rule_id : string) (rule_config : json)
| call_update_global_rule_with_path (rule_id path : string) (rule_config : json)
| call_list_consumer_groups
| call_get_consumer_group (group_id : string)
| call_create_consumer_group_with_id (group_id : string) (group_config : json)
| call_delete_consumer_group (group_id : string)
| call_update_consumer_group (group_id : string) (group_config : json)
| call_update_consumer_group_with_path (group_id path : string) (group_config : json)
| call_list_plugin_configs
| call_get_plugin_config (config_id : string)
| call_create_plugin_config_with_id (config_id : string) (config : json)
| call_delete_plugin_config (config_id : string)
| call_update_plugin_config (config_id : string) (config : json)
| call_update_plugin_config_with_path (config_id path : string) (config : json)
| call_get_plugin_metadata (plugin_name : string)
| call_create_plugin_metadata (plugin_name : string) (metadata : json)
| call_delete_plugin_metadata (plugin_name : string)
| call_list_plugins
| call_get_plugin (plugin_name : string)
| call_get_all_plugins_properties
| call_get_all_stream_plugins_properties
| call_get_all_http_plugins_properties
| call_reload_plugins
| call_get_plugin_properties (plugin_name : string) (subsystem : option string)
| call_list_stream_routes
| call_get_stream_route (route_id : string)
| call_create_stream_route_with_id (route_id : string) (route_config : json)
| call_create_stream_route (route_config : json)
| call_delete_stream_route (route_id : string)
| call_list_secrets
| call_get_secret (manager secret_id : string)
| call_create_secret (manager : string) (secret_config : json)
| call_delete_secret (manager secret_id : string)
| call_update_secret (manager secret_id : string) (secret_config : json)
| call_update_secret_with_path (manager secret_id path : string) (secret_config : json)
| call_list_protos
| call_get_proto (proto_id : string)
| call_create_proto_with_id (proto_id : string) (proto_config : json)
| call_create_proto (proto_config : json)
| call_delete_proto (proto_id : string)
| call_validate_resource_schema (resource : string) (config : json).

Definition invoke (env : requests.Env) (c : Call) : M json :=
  match c with
  | call_list_routes => list_routes env
  | call_get_route route_id => get_route env route_id
  | call_create_route route_config ttl => create_route env route_config ttl
  | call_update_route route_id route_config ttl =>
      update_route env route_id route_config ttl
  | call_update_route_with_path route_id route_path route_config ttl =>
      update_route_with_path env route_id route_path route_config ttl
  | call_create_route_with_id route_id route_config ttl =>
      create_route_with_id env route_id route_config ttl
  | call_delete_route route_id => delete_route env route_id
  | call_list_services => list_services env
  | call_get_service service_id => get_service env service_id
  | call_create_service service_config => create_service env service_config
  | call_update_service service_id service_config =>
      update_service env service_id service_config
  | call_update_service_with_path service_id service_path service_config =>
      update_service_with_path env service_id service_path service_config
  | call_create_service_with_id service_id service_config =>
      create_service_with_id env service_id service_config
  | call_delete_service service_id => delete_service env service_id
  | call_list_consumers => list_consumers env
  | call_get_consumer username => get_consumer env username
  | call_create_consumer consumer_config =>
      create_consumer env consumer_config
  | call_update_consumer username consumer_config =>
      update_consumer env username consumer_config
  | call_delete_consumer username => delete_consumer env username
  | call_list_consumer_credentials username =>
      list_consumer_credentials env username
  | call_get_consumer_credential username credential_id =>
      get_consumer_credential env username credential_id
  | call_create_or_update_consumer_credential username credential_id credential_config =>
      create_or_update_consumer_credential env username credential_id credential_config
  | call_delete_consumer_credential username credential_id =>
      delete_consumer_credential env username credential_id
  | call_list_upstreams => list_upstreams env
  | call_get_upstream upstream_id => get_upstream env upstream_id
  | call_create_upstream_with_id upstream_id upstream_config =>
      create_upstream_with_id env upstream_id upstream_config
  | call_create_upstream upstream_config =>
      create_upstream env upstream_config
  | call_update_upstream upstream_id upstream_config =>
      update_upstream env upstream_id upstream_config
  | call_update_upstream_with_path upstream_id path upstream_config =>
      update_upstream_with_path env upstream_id path upstream_config
  | call_delete_upstream upstream_id => delete_upstream env upstream_id
  | call_list_ssl => list_ssl env
  | call_get_ssl ssl_id => get_ssl env ssl_id
  | call_create_ssl ssl_config => create_ssl env ssl_config
  | call_update_ssl ssl_id ssl_config => update_ssl env ssl_id ssl_config
  | call_delete_ssl ssl_id => delete_ssl env ssl_id
  | call_list_global_rules => list_global_rules env
  | call_get_global_rule rule_id => get_global_rule env rule_id
  | call_create_global_rule_with_id rule_id rule_config =>
      create_global_rule_with_id env rule_id rule_config
  | call_delete_global_rule rule_id => delete_global_rule env rule_id
  | call_update_global_rule rule_id rule_config =>
      update_global_rule env rule_id rule_config
  | call_update_global_rule_with_path rule_id path rule_config =>
      update_global_rule_with_path env rule_id path rule_config
  | call_list_consumer_groups => list_consumer_groups env
  | call_get_consumer_group group_id => get_consumer_group env group_id
  | call_create_consumer_group_with_id group_id group_config =>
      create_consumer_group_with_id env group_id group_config
  | call_delete_consumer_group group_id => delete_consumer_group env group_id
  | call_update_consumer_group group_id group_config =>
      update_consumer_group env group_id group_config
  | call_update_consumer_group_with_path group_id path group_config =>
      update_consumer_group_with_path env group_id path group_config
  | call_list_plugin_configs => list_plugin_configs env
  | call_get_plugin_config config_id => get_plugin_config env config_id
  | call_create_plugin_config_with_id config_id config =>
      create_plugin_config_with_id env config_id config
  | call_delete_plugin_config config_id => delete_plugin_config env config_id
  | call_update_plugin_config config_id config =>
      update_plugin_config env config_id config
  | call_update_plugin_config_with_path config_id path config =>
      update_plugin_config_with_path env config_id path config
  | call_get_plugin_metadata plugin_name =>
      get_plugin_metadata env plugin_name
  | call_create_plugin_metadata plugin_name metadata =>
      create_plugin_metadata env plugin_name metadata
  | call_delete_plugin_metadata plugin_name =>
      delete_plugin_metadata env plugin_name
  | call_list_plugins => list_plugins env
  | call_get_plugin plugin_name => get_plugin env plugin_name
  | call_get_all_plugins_properties => get_all_plugins_properties env
  | call_get_all_stream_plugins_properties =>
      get_all_stream_plugins_properties env
  | call_get_all_http_plugins_properties =>
      get_all_http_plugins_properties env
  | call_reload_plugins => reload_plugins env
  | call_get_plugin_properties plugin_name subsystem =>
      get_plugin_properties env plugin_name subsystem
  | call_list_stream_routes => list_stream_routes env
  | call_get_stream_route route_id => get_stream_route env route_id
  | call_create_stream_route_with_id route_id route_config =>
      create_stream_route_with_id env route_id route_config
  | call_create_stream_route route_config =>
      create_stream_route env route_config
  | call_delete_stream_route route_id => delete_stream_route env route_id
  | call_list_secrets => list_secrets env
  | call_get_secret manager secret_id => get_secret env manager secret_id
  | call_create_secret manager secret_config =>
      create_secret env manager secret_config
  | call_delete_secret manager secret_id =>
      delete_secret env manager secret_id
  | call_update_secret manager secret_id secret_config =>
      update_secret env manager secret_id secret_config
  | call_update_secret_with_path manager secret_id path secret_config =>
      update_secret_with_path env manager secret_id path secret_config
  | call_list_protos => list_protos env
  | call_get_proto proto_id => get_proto env proto_id
  | call_create_proto_with_id proto_id proto_config =>
      create_proto_with_id env proto_id proto_config
  | call_create_proto proto_config => create_proto env proto_config
  | call_delete_proto proto_id => delete_proto env proto_id
  | call_validate_resource_schema resource config =>
      validate_resource_schema env resource config
  end.

End Admin.

(** ** class Control *)

Module Control.

Definition __init__ (base_url api_key : string) : Client :=
  new_client base_url api_key.

Section Methods.
Variable env : requests.Env.

Definition _make_request (method endpoint : string) (data : option json)
  : M json :=
  self <- get_self ;;
  let url := base_url self ++ "/" ++ lstrip slash endpoint in
  try_except_RequestException
    (response <-
       (if upper method =? "GET" then
          requests_get env url (headers self)
        else if upper method =? "POST" then
          requests_post env url (headers self) data
        else if upper method =? "PUT" then
          requests_put env url (headers self) data
        else
          raise (ValueError ("Unsupported HTTP method: " ++ method))) ;;
     _ <- raise_for_status response ;;
     response_json env response)
    (fun e =>
       raise (ConnectionError
                ("Error connecting to APISIX: " ++ requests.str e) e)).

(** Schema API *)

Definition get_schema : M json :=
  _make_request "GET" "/schema" None.

(** Healthcheck API *)

Definition healthcheck : M json :=
  _make_request "GET" "/healthcheck" None.

(** Garbage Collection API *)

Definition trigger_gc : M json :=
  _make_request "POST" "/gc" None.

(** Routes API *)

Definition list_routes : M json :=
  response <- _make_request "GET" "/routes" None ;;
  unwrap_nodes response.

Definition get_route (route_id : string) : M json :=
  _make_request "GET" ("/route/" ++ route_id) None.

(** Services API *)

Definition list_services : M json :=
  response <- _make_request "GET" "/services" None ;;
  unwrap_nodes response.

Definition get_service (service_id : string) : M json :=
  _make_request "GET" ("/service/" ++ service_id) None.

(** Upstreams API *)

Definition list_upstreams : M json :=
  response <- _make_request "GET" "/upstreams" None ;;
  unwrap_nodes response.

Definition get_upstream (upstream_id : string) : M json :=
  _make_request "GET" ("/upstream/" ++ upstream_id) None.

(** Plugin Metadata API *)

Definition list_plugin_metadatas : M json :=
  response <- _make_request "GET" "/plugin_metadatas" None ;;
  unwrap_nodes response.

Definition get_plugin_metadata (plugin_name : string) : M json :=
  _make_request "GET" ("/plugin_metadata/" ++ plugin_name) None.

(** Plugins API *)

Definition reload_plugins : M json :=
  _make_request "PUT" "/plugins/reload" None.

(** Discovery API *)

Definition get_discovery_dump (service : string) : M json :=
  _make_request "GET" ("/discovery/" ++ service ++ "/dump") None.

Definition show_discovery_dump_file (service : string) : M json :=
  _make_request "GET" ("/discovery/" ++ service ++ "/show_dump_file") None.

End Methods.

(** The public methods, one constructor each. *)
Inductive Call :=
| call_get_schema
| call_healthcheck
| call_trigger_gc
| call_list_routes
| call_get_route (route_id : string)
| call_list_services
| call_get_service (service_id : string)
| call_list_upstreams
| call_get_upstream (upstream_id : string)
| call_list_plugin_metadatas
| call_get_plugin_metadata (plugin_name : string)
| call_reload_plugins
| call_get_discovery_dump (service : string)
| call_show_discovery_dump_file (service : string).

Definition invoke (env : requests.Env) (c : Call) : M json :=
  match c with
  | call_get_schema => get_schema env
  | call_healthcheck => healthcheck env
  | call_trigger_gc => trigger_gc env
  | call_list_routes => list_routes env
  | call_get_route route_id => get_route env route_id
  | call_list_services => list_services env
  | call_get_service service_id => get_service env service_id
  | call_list_upstreams => list_upstreams env
  | call_get_upstream upstream_id => get_upstream env upstream_id
  | call_list_plugin_metadatas => list_plugin_metadatas env
  | call_get_plugin_metadata plugin_name =>
      get_plugin_metadata env plugin_name
  | call_reload_plugins => reload_plugins env
  | call_get_discovery_dump service => get_discovery_dump env service
  | call_show_discovery_dump_file service =>
      show_discovery_dump_file env service
  end.

End Control.

(** ** The two dispatchers side by side *)

Inductive Surface := AdminSurface | ControlSurface.

Definition make_request (s : Surface) (env : requests.Env)
  : string -> string -> option json -> M json :=
  match s with
  | AdminSurface => Admin._make_request env
  | ControlSurface => Control._make_request env
  end.

Definition init (s : Surface) : string -> string -> Client :=
  match s with
  | AdminSurface => Admin.__init__
  | ControlSurface => Control.__init__
  end.

(** The name of the [requests] function behind a recorded call. *)
Definition method_name (m : requests.Method) : string :=
  match m with
  | requests.GET => "GET"
  | requests.POST => "POST"
  | requests.PUT => "PUT"
  | requests.DELETE => "DELETE"
  | requests.PATCH => "PATCH"
  end.

(** The verbs that reach a [requests] call in each class, read off the
    [if]/[elif] chains. *)
Definition verbs (s : Surface) : list requests.Method :=
  match s with
  | AdminSurface =>
      [requests.GET; requests.POST; requests.PUT; requests.DELETE;
       requests.PATCH]
  | ControlSurface => [requests.GET; requests.POST; requests.PUT]
  end.

Definition verb_of (s : Surface) (method : string) : option requests.Method :=
  find (fun v => upper method =? method_name v) (verbs s).

Definition accepts (s : Surface) (method : string) : bool :=
  match verb_of s method with Some _ => true | None => false end.

(** The call a dispatcher makes for a verb: [json=data] only for the verbs
    whose branch passes it. *)
Definition build_request (self : Client) (v : requests.Method)
    (endpoint : string) (data : option json) : requests.Request :=
  {| requests.method := v;
     requests.url := base_url self ++ "/" ++ lstrip slash endpoint;
     requests.headers := headers self;
     requests.json_arg :=
       match v with
       | requests.GET | requests.DELETE => None
       | _ => data
       end |}.

Definition connection_error (e : requests.RequestException) : exn :=
  ConnectionError ("Error connecting to APISIX: " ++ requests.str e) e.

(** What the caller gets once the answer to the request is known. *)
Definition settle (env : requests.Env)
    (answer : requests.Response + requests.RequestException) : Result json :=
  match answer with
  | inr e => Raise (connection_error e)
  | inl r =>
      match requests.status_error r with
      | Some e => Raise (connection_error e)
      | None =>
          match requests.body r with
          | requests.Parsed v => Ok v
          | requests.Malformed err =>
              if requests.json_errors_wrapped env
              then Raise (connection_error
                            {| requests.kind := requests.JSONDecodeError_;
                               requests.str := err;
                               requests.response := None |})
              else Raise (JSONDecodeError err)
          end
      end
  end.

(** ** Families of public methods *)

(** The list methods that end in [response.get('node', {}).get('nodes', [])]:
    twelve of [Admin], four of [Control]. *)
Inductive ListOp :=
| Admin_list_routes
| Admin_list_services
| Admin_list_consumers
| Admin_list_upstreams
| Admin_list_ssl
| Admin_list_global_rules
| Admin_list_consumer_groups
| Admin_list_plugin_configs
| Admin_list_plugins
| Admin_list_stream_routes
| Admin_list_secrets
| Admin_list_protos
| Control_list_routes
| Control_list_services
| Control_list_upstreams
| Control_list_plugin_metadatas.

Definition run_list (env : requests.Env) (op : ListOp) : M json :=
  match op with
  | Admin_list_routes => Admin.list_routes env
  | Admin_list_services => Admin.list_services env
  | Admin_list_consumers => Admin.list_consumers env
  | Admin_list_upstreams => Admin.list_upstreams env
  | Admin_list_ssl => Admin.list_ssl env
  | Admin_list_global_rules => Admin.list_global_rules env
  | Admin_list_consumer_groups => Admin.list_consumer_groups env
  | Admin_list_plugin_configs => Admin.list_plugin_configs env
  | Admin_list_plugins => Admin.list_plugins env
  | Admin_list_stream_routes => Admin.list_stream_routes env
  | Admin_list_secrets => Admin.list_secrets env
  | Admin_list_protos => Admin.list_protos env
  | Control_list_routes => Control.list_routes env
  | Control_list_services => Control.list_services env
  | Control_list_upstreams => Control.list_upstreams env
  | Control_list_plugin_metadatas => Control.list_plugin_metadatas env
  end.

(** The four methods with a [ttl] parameter, all of [Admin]. *)
Inductive TtlOp :=
| Ttl_create_route (route_config : json)
| Ttl_update_route (route_id : string) (route_config : json)
| Ttl_update_route_with_path (route_id route_path : string)
    (route_config : json)
| Ttl_create_route_with_id (route_id : string) (route_config : json).

Definition run_ttl (env : requests.Env) (op : TtlOp) (ttl : option Z)
  : M json :=
  match op with
  | Ttl_create_route cfg => Admin.create_route env cfg ttl
  | Ttl_update_route id cfg => Admin.update_route env id cfg ttl
  | Ttl_update_route_with_path id path cfg =>
      Admin.update_route_with_path env id path cfg ttl
  | Ttl_create_route_with_id id cfg => Admin.create_route_with_id env id cfg ttl
  end.

(** The path segments the caller supplies to such a method. *)
Definition ttl_segments (op : TtlOp) : list string :=
  match op with
  | Ttl_create_route _ => []
  | Ttl_update_route id _ => [id]
  | Ttl_update_route_with_path id path _ => [id; path]
  | Ttl_create_route_with_id id _ => [id]
  end.

(** ** Vocabulary of the properties *)

(** A method leaves the instance as it found it. *)
Definition preserves {A} (m : M A) : Prop :=
  forall self, self_after (m self) = self.

(** The part of a URL after the first [://], or all of it without one. *)
Fixpoint drop_scheme (u : string) : option string :=
  match u with
  | EmptyString => None
  | String _ u' =>
      if prefix "://" u then Some (substring 3 (String.length u) u)
      else drop_scheme u'
  end.

Definition after_scheme (u : string) : string :=
  match drop_scheme u with
  | Some rest => rest
  | None => u
  end.

(** The builtin [ConnectionError]. *)
Definition is_connectivity (e : exn) : bool :=
  match e with
  | ConnectionError _ _ => true
  | _ => false
  end.

(** The response an exception gives access to, directly or through its
    [__context__]. *)
Definition carried_response (e : exn) : option requests.Response :=
  match e with
  | RequestError re => requests.response re
  | ConnectionError _ ctx => requests.response ctx
  | _ => None
  end.


(** The reading of a non-2xx answer as an error of its own kind: not the
    builtin [ConnectionError], and carrying status code and raw body. *)
Definition surfaces_as_status_error (o : Outcome json) (r : requests.Response)
  : Prop :=
  exists e,
    result o = Raise e /\
    is_connectivity e = false /\
    option_map requests.status_code (carried_response e)
      = Some (requests.status_code r) /\
    option_map requests.text (carried_response e) = Some (requests.text r).


(** Exactly one call into [requests], to a URL free of double slashes after
    its scheme. *)
Definition one_clean_request (o : Outcome json) : Prop :=
  exists req,
    sent o = [req] /\ double_slashes (after_scheme (requests.url req)) = 0.

(** The dispatcher of a class turns the verb into a call of [requests]. *)
Definition dispatches (s : Surface) (verb : string) : Prop :=
  forall env self endpoint data,
  exists req,
    sent (make_request s env verb endpoint data self) = [req] /\
    method_name (requests.method req) = verb.

(** ** Sample servers and clients *)

Definition answer_all (a : requests.Response + requests.RequestException)
    (wrapped : bool) : requests.Env :=
  {| requests.send := fun _ => a; requests.json_errors_wrapped := wrapped |}.

Definition admin0 : Client :=
  Admin.__init__ "http://localhost:9180/apisix/admin/" "edd1c9f0".

Definition control0 : Client :=
  Control.__init__ "http://localhost:9090/v1/" "edd1c9f0".

(** A JSON string literal. *)
Definition q (s : string) : string :=
  String (ascii_of_nat 34) s ++ String (ascii_of_nat 34) EmptyString.

Definition not_found : requests.Response :=
  {| requests.status_code := 404;
     requests.reason := "Not Found";
     requests.resp_url := "http://localhost:9180/apisix/admin/routes/r1";
     requests.text :=
       "{" ++ q "error_msg" ++ ":" ++ q "not found" ++ "}";
     requests.body := requests.Parsed (JDict [("error_msg", JStr "not found")])
  |}.

Definition read_timeout : requests.RequestException :=
  {| requests.kind := requests.Timeout;
     requests.str :=
       "HTTPConnectionPool(host='localhost', port=9180): Read timed out.";
     requests.response := None |}.

Definition two_nodes : list json :=
  [JDict [("id", JStr "1")]; JDict [("id", JStr "2")]].

Definition envelope : json :=
  JDict [("node", JDict [("nodes", JList two_nodes)])].

Definition envelope_text : string :=
  "{" ++ q "node" ++ ":{" ++ q "nodes" ++ ":[{" ++ q "id" ++ ":" ++ q "1"
      ++ "},{" ++ q "id" ++ ":" ++ q "2" ++ "}]}}".

Definition ok_response (u raw : string) (v : json) : requests.Response :=
  {| requests.status_code := 200;
     requests.reason := "OK";
     requests.resp_url := u;
     requests.text := raw;
     requests.body := requests.Parsed v |}.

Definition sample_route : json :=
  JDict [("uri", JStr "/foo")].

Definition credentials_env : requests.Env :=
  answer_all
    (inl (ok_response
            "http://localhost:9180/apisix/admin/consumers/jack/credentials"
            envelope_text envelope))
    true.

(** ** The public interface as a whole *)

(** A call of any public method of either class. *)
Inductive PublicCall :=
| AdminCall (c : Admin.Call)
| ControlCall (c : Control.Call).

Definition surface_of (pc : PublicCall) : Surface :=
  match pc with
  | AdminCall _ => AdminSurface
  | ControlCall _ => ControlSurface
  end.

Definition invoke_public (env : requests.Env) (pc : PublicCall) : M json :=
  match pc with
  | AdminCall c => Admin.invoke env c
  | ControlCall c => Control.invoke env c
  end.

(** The methods whose last line is
    [response.get('node', {}).get('nodes', [])]. *)
Definition unwraps (pc : PublicCall) : bool :=
  match pc with
  | AdminCall Admin.call_list_routes
  | AdminCall Admin.call_list_services
  | AdminCall Admin.call_list_consumers
  | AdminCall Admin.call_list_upstreams
  | AdminCall Admin.call_list_ssl
  | AdminCall Admin.call_list_global_rules
  | AdminCall Admin.call_list_consumer_groups
  | AdminCall Admin.call_list_plugin_configs
  | AdminCall Admin.call_list_plugins
  | AdminCall Admin.call_list_stream_routes
  | AdminCall Admin.call_list_secrets
  | AdminCall Admin.call_list_protos
  | ControlCall Control.call_list_routes
  | ControlCall Control.call_list_services
  | ControlCall Control.call_list_upstreams
  | ControlCall Control.call_list_plugin_metadatas => true
  | _ => false
  end.

(** A run of [n] slashes. *)
Fixpoint slashes (n : nat) : string :=
  match n with
  | O => EmptyString
  | S n' => String slash (slashes n')
  end.

Definition is_dict (v : json) : bool :=
  match v with
  | JDict _ => true
  | _ => false
  end.

(** Sample answers for the edge cases. *)
Definition html_page : requests.Response :=
  {| requests.status_code := 200;
     requests.reason := "OK";
     requests.resp_url := "http://localhost:9180/apisix/admin/routes";
     requests.text := "<html></html>";
     requests.body :=
       requests.Malformed "Expecting value: line 1 column 1 (char 0)" |}.

Definition array_body : requests.Response :=
  ok_response "http://localhost:9180/apisix/admin/routes" "[]" (JList []).

Definition created : requests.Response :=
  {| requests.status_code := 201;
     requests.reason := "Created";
     requests.resp_url := "http://localhost:9180/apisix/admin/routes";
     requests.text := "{" ++ q "uri" ++ ":" ++ q "/foo" ++ "}";
     requests.body := requests.Parsed sample_route |}.

(** The list inside a [{"node": {"nodes": ...}}] envelope, when the value
    has one. *)
Definition envelope_nodes (v : json) : option json :=
  match v with
  | JDict d =>
      match dict_get "node" d with
      | Some (JDict d') => dict_get "nodes" d'
      | _ => None
      end
  | _ => None
  end.

(** The reading of the unwrapping as total: the inner list when the body
    has the envelope, the empty list when it has not. *)
Definition returns_nodes_or_empty (o : Outcome json) (body : json) : Prop :=
  result o =
  Ok (match envelope_nodes body with
      | Some nodes => nodes
      | None => JList []
      end).

(** Exactly one call into [requests], to a URL without a query string. *)
Definition no_query_string (o : Outcome json) : Prop :=
  exists req, sent o = [req] /\ count_char qmark (requests.url req) = 0.

(** The verb [post] written with U+017F, the long s. *)
Definition long_s_post : string :=
  String "p" (String "o"
    (String (ascii_of_nat 197) (String (ascii_of_nat 191) "t"))).

Definition null_node : requests.Response :=
  ok_response "http://localhost:9180/apisix/admin/routes"
    ("{" ++ q "node" ++ ":null}") (JDict [("node", JNull)]).

(** * Properties *)

(** ** Text *)

Lemma lstrip_not_starts_with c s : starts_with c (lstrip c s) = false.
Proof.
  induction s as [|a s IH]; simpl; [reflexivity|].
  destruct (Ascii.eqb a c) eqn:E; [exact IH | simpl; exact E].
Qed.

Lemma rstrip_not_ends_with c s : ends_with c (rstrip c s) = false.
Proof.
  induction s as [|a s IH]; simpl; [reflexivity|].
  destruct (rstrip c s) as [|b r] eqn:R.
  - destruct (Ascii.eqb a c) eqn:E; simpl; [reflexivity | exact E].
  - exact IH.
Qed.



Lemma count_char_app c a b :
  count_char c (a ++ b) = count_char c a + count_char c b.
Proof. induction a as [|x a IH]; simpl; [reflexivity | rewrite IH; lia]. Qed.



(** Gluing with one slash adds no double slash when the left part does not
    end in a slash and the right part does not begin with one. *)
Lemma double_slashes_join a b :
  ends_with slash a = false ->
  starts_with slash b = false ->
  double_slashes (a ++ "/" ++ b) = double_slashes a + double_slashes b.
Proof.
  intros Ha Hb. induction a as [|x a IH].
  - simpl. rewrite Hb. reflexivity.
  - change (String x a ++ "/" ++ b) with (String x (a ++ "/" ++ b)).
    cbn [double_slashes]. destruct a as [|y a'].
    + simpl in Ha. simpl. rewrite Ha, Hb. reflexivity.
    + rewrite IH by exact Ha. simpl. lia.
Qed.

Lemma prefix_app n b : prefix n (n ++ b) = true.
Proof.
  induction n as [|x n IH]; simpl; [destruct b; reflexivity|].
  rewrite IH. destruct (ascii_dec x x); [reflexivity | congruence].
Qed.

Lemma contains_prefix n s : prefix n s = true -> contains n s = true.
Proof. destruct s; simpl; intros ->; reflexivity. Qed.

Lemma contains_app n a b : contains n (a ++ n ++ b) = true.
Proof.
  induction a as [|x a IH].
  - change ("" ++ n ++ b) with (n ++ b). apply contains_prefix, prefix_app.
  - change (String x a ++ n ++ b) with (String x (a ++ n ++ b)).
    cbn [contains]. rewrite IH. apply orb_true_r.
Qed.

(** ** The dispatchers *)

(** Each [_make_request] is its class's verb table followed by [settle]. *)
Lemma make_request_eq s env method endpoint data self :
  make_request s env method endpoint data self =
  match verb_of s method with
  | Some v =>
      let req := build_request self v endpoint data in
      {| result := settle env (requests.send env req);
         self_after := self; sent := [req] |}
  | None =>
      {| result := Raise (ValueError ("Unsupported HTTP method: " ++ method));
         self_after := self; sent := [] |}
  end.
Proof.
  destruct s; unfold make_request, verb_of, verbs, find, method_name;
    [unfold Admin._make_request | unfold Control._make_request];
    unfold bind, get_self, try_except_RequestException; simpl.
  all: repeat match goal with
         | |- context [if (?a =? ?v)%string then _ else _] =>
             destruct (a =? v)%string
         end; simpl.
  all: unfold requests_get, requests_post, requests_put, requests_delete,
         requests_patch, request, build_request, settle, raise;
       simpl; try reflexivity.
  all: destruct (requests.send env _) as [r|e]; simpl; try reflexivity.
  all: unfold raise_for_status; destruct (requests.status_error r); simpl;
       try reflexivity.
  all: unfold response_json; destruct (requests.body r); simpl;
       try reflexivity.
  all: destruct (requests.json_errors_wrapped env); reflexivity.
Qed.

Lemma verb_of_name s method v :
  verb_of s method = Some v -> method_name v = upper method.
Proof.
  unfold verb_of. intros H. apply find_some in H as [_ H].
  apply String.eqb_eq in H. congruence.
Qed.

Lemma sent_make_request s env method endpoint data self :
  sent (make_request s env method endpoint data self) =
  match verb_of s method with
  | Some v => [build_request self v endpoint data]
  | None => []
  end.
Proof. rewrite make_request_eq. destruct (verb_of s method); reflexivity. Qed.

Lemma result_make_request s env method endpoint data self :
  result (make_request s env method endpoint data self) =
  match verb_of s method with
  | Some v =>
      settle env (requests.send env (build_request self v endpoint data))
  | None => Raise (ValueError ("Unsupported HTTP method: " ++ method))
  end.
Proof. rewrite make_request_eq. destruct (verb_of s method); reflexivity. Qed.

(** When one call was recorded, the result is the settled answer to it. *)
Lemma result_of_sent s env method endpoint data self req :
  sent (make_request s env method endpoint data self) = [req] ->
  result (make_request s env method endpoint data self) =
  settle env (requests.send env req).
Proof.
  rewrite sent_make_request, result_make_request.
  destruct (verb_of s method); intros H; [|discriminate].
  injection H as <-. reflexivity.
Qed.



Lemma status_error_4xx_5xx r :
  (400 <= requests.status_code r < 600)%Z ->
  exists e,
    requests.status_error r = Some e /\
    requests.kind e = requests.HTTPError /\
    requests.response e = Some r /\
    exists tail, requests.str e = str_int (requests.status_code r) ++ tail.
Proof.
  intros H. unfold requests.status_error, requests.http_error_msg.
  destruct ((400 <=? requests.status_code r)
            && (requests.status_code r <? 500))%Z eqn:E4.
  - eexists; repeat split; eexists; reflexivity.
  - destruct ((500 <=? requests.status_code r)
              && (requests.status_code r <? 600))%Z eqn:E5.
    + eexists; repeat split; eexists; reflexivity.
    + exfalso. apply andb_false_iff in E4, E5. lia.
Qed.

Lemma status_error_none r :
  ~ (400 <= requests.status_code r < 600)%Z ->
  requests.status_error r = None.
Proof.
  intros H. unfold requests.status_error, requests.http_error_msg.
  destruct ((400 <=? requests.status_code r)
            && (requests.status_code r <? 500))%Z eqn:E4;
    [apply andb_true_iff in E4; lia|].
  destruct ((500 <=? requests.status_code r)
            && (requests.status_code r <? 600))%Z eqn:E5;
    [apply andb_true_iff in E5; lia | reflexivity].
Qed.

(** ** Claims *)

(** C1, as the code has it: when the response to a [_make_request] of either
    class has a status in 400..599, the call raises the builtin
    [ConnectionError], the kind it also raises for transport failures.  Its
    message is the fixed prefix followed by the text of the [HTTPError] of
    [raise_for_status], which begins with the status code; its context is
    that [HTTPError], which holds the response.  Nothing is returned. *)
Theorem status_4xx_5xx_raises_ConnectionError
    s env self method endpoint data req r :
  sent (make_request s env method endpoint data self) = [req] ->
  requests.send env req = inl r ->
  (400 <= requests.status_code r < 600)%Z ->
  exists e,
    requests.kind e = requests.HTTPError /\
    requests.response e = Some r /\
    (exists tail, requests.str e = str_int (requests.status_code r) ++ tail) /\
    result (make_request s env method endpoint data self) =
      Raise (ConnectionError
               ("Error connecting to APISIX: " ++ requests.str e) e).
Proof.
  intros Hsent Hsend Hcode.
  destruct (status_error_4xx_5xx r Hcode) as (e & He & Hk & Hr & Ht).
  exists e. repeat split; try assumption.
  rewrite (result_of_sent _ _ _ _ _ _ _ Hsent), Hsend.
  unfold settle. rewrite He. reflexivity.
Qed.

Lemma status_4xx_5xx_raises_ConnectionError_witness :
  exists e,
    requests.kind e = requests.HTTPError /\
    requests.response e = Some not_found /\
    (exists tail, requests.str e = "404" ++ tail) /\
    result (Admin.get_route (answer_all (inl not_found) true) "r1" admin0) =
      Raise (ConnectionError
               ("Error connecting to APISIX: " ++ requests.str e) e).
Proof.
  apply (status_4xx_5xx_raises_ConnectionError AdminSurface
           (answer_all (inl not_found) true) admin0 "GET" "/routes/r1" None
           (build_request admin0 requests.GET "/routes/r1" None) not_found).
  - reflexivity.
  - reflexivity.
  - simpl. lia.
Defined.

(** C1, as stated, fails: a 404 surfaces as the builtin [ConnectionError],
    not as an error of a kind of its own. *)
Lemma status_404_is_not_a_status_error :
  ~ surfaces_as_status_error
      (Admin.get_route (answer_all (inl not_found) true) "r1" admin0)
      not_found.
Proof.
  intros (e & He & Hk & _).
  vm_compute in He. injection He as <-. discriminate Hk.
Qed.

(** A status outside 2xx and outside 400..599 is not an error for
    [raise_for_status]: the parsed body is returned. *)
Example status_304_is_returned :
  result (Admin.get_route
            (answer_all
               (inl {| requests.status_code := 304;
                       requests.reason := "Not Modified";
                       requests.resp_url := "";
                       requests.text := "{}";
                       requests.body := requests.Parsed (JDict []) |}) true)
            "r1" admin0)
  = Ok (JDict []).
Proof. reflexivity. Qed.

(** C2, as the code has it: for a verb its class supports, [_make_request]
    makes exactly one call into [requests], with the function of that verb,
    to the URL made of the constructor's base URL without its trailing
    slashes, one slash, and the endpoint without its leading slashes.  The
    left part does not end in a slash and the right part does not begin with
    one, so the URL has exactly the double slashes that the base URL and the
    endpoint have inside. *)
Theorem one_request_to_joined_url s env base key method endpoint data :
  accepts s method = true ->
  exists req,
    sent (make_request s env method endpoint data (init s base key)) = [req] /\
    method_name (requests.method req) = upper method /\
    requests.url req = rstrip slash base ++ "/" ++ lstrip slash endpoint /\
    ends_with slash (rstrip slash base) = false /\
    starts_with slash (lstrip slash endpoint) = false /\
    double_slashes (requests.url req) =
      double_slashes (rstrip slash base)
      + double_slashes (lstrip slash endpoint).
Proof.
  unfold accepts. intros H. rewrite sent_make_request.
  destruct (verb_of s method) as [v|] eqn:Hv; [clear H | discriminate].
  assert (Hb : base_url (init s base key) = rstrip slash base)
    by (destruct s; reflexivity).
  exists (build_request (init s base key) v endpoint data).
  cbn [build_request requests.method requests.url]. rewrite Hb.
  pose proof (rstrip_not_ends_with slash base) as Hl.
  pose proof (lstrip_not_starts_with slash endpoint) as Hr.
  repeat split; try assumption.
  - exact (verb_of_name _ _ _ Hv).
  - apply double_slashes_join; assumption.
Qed.

Lemma one_request_to_joined_url_witness :
  exists req,
    sent (Control.get_route (answer_all (inr read_timeout) true) "r1" control0)
      = [req] /\
    method_name (requests.method req) = "GET" /\
    requests.url req = "http://localhost:9090/v1/route/r1" /\
    ends_with slash "http://localhost:9090/v1" = false /\
    starts_with slash "route/r1" = false /\
    double_slashes (requests.url req) = 1 + 0.
Proof.
  apply (one_request_to_joined_url ControlSurface
           (answer_all (inr read_timeout) true)
           "http://localhost:9090/v1/" "edd1c9f0" "GET" "/route/r1" None).
  reflexivity.
Defined.

(** C2, as stated, fails: an identifier that begins with a slash is put
    into the endpoint as it is, and the URL has a double slash in its
    path. *)
Lemma identifier_slash_gives_double_slash :
  ~ one_clean_request
      (Admin.get_route (answer_all (inl not_found) true) "/r1" admin0).
Proof.
  intros (req & Hsent & Hclean).
  vm_compute in Hsent. injection Hsent as <-.
  vm_compute in Hclean. discriminate Hclean.
Qed.

Example identifier_slash_url :
  map requests.url
    (sent (Admin.get_route (answer_all (inl not_found) true) "/r1" admin0))
  = ["http://localhost:9180/apisix/admin/routes//r1"].
Proof. reflexivity. Qed.




(** C6: a verb outside the set of its class makes [_make_request] raise
    [ValueError] without any call into [requests]. *)
Theorem unsupported_verb_fails_before_io s env self method endpoint data :
  accepts s method = false ->
  result (make_request s env method endpoint data self) =
    Raise (ValueError ("Unsupported HTTP method: " ++ method)) /\
  sent (make_request s env method endpoint data self) = [].
Proof.
  unfold accepts. intros H.
  rewrite result_make_request, sent_make_request.
  destruct (verb_of s method); [discriminate | split; reflexivity].
Qed.

Lemma unsupported_verb_fails_before_io_witness :
  result (Admin._make_request (answer_all (inl not_found) true)
            "head" "/routes" None admin0) =
    Raise (ValueError "Unsupported HTTP method: head") /\
  sent (Admin._make_request (answer_all (inl not_found) true)
          "head" "/routes" None admin0) = [].
Proof.
  apply (unsupported_verb_fails_before_io AdminSurface
           (answer_all (inl not_found) true) admin0 "head" "/routes" None).
  reflexivity.
Defined.

(** A verb that only becomes POST through the case mapping of a character
    outside ASCII is supported all the same. *)
Example long_s_post_is_dispatched :
  upper long_s_post = "POST" /\
  accepts AdminSurface long_s_post = true /\
  map requests.method
    (sent (Admin._make_request credentials_env long_s_post "/routes"
             (Some sample_route) admin0))
  = [requests.POST].
Proof. repeat split; reflexivity. Qed.

(** C7, as the code has it: [Admin] dispatches GET, POST, PUT, PATCH and
    DELETE; [Control] dispatches GET, POST and PUT only, and raises
    [ValueError] for PATCH and DELETE without any call into [requests]. *)
Theorem verbs_of_each_class :
  Forall (dispatches AdminSurface) ["GET"; "POST"; "PUT"; "PATCH"; "DELETE"] /\
  Forall (dispatches ControlSurface) ["GET"; "POST"; "PUT"] /\
  Forall
    (fun verb =>
       forall env self endpoint data,
         make_request ControlSurface env verb endpoint data self =
         {| result := Raise (ValueError ("Unsupported HTTP method: " ++ verb));
            self_after := self; sent := [] |})
    ["PATCH"; "DELETE"].
Proof.
  repeat split; repeat constructor;
    try (intros env self endpoint data; rewrite make_request_eq; reflexivity);
    intros env self endpoint data; rewrite sent_make_request;
    eexists; split; reflexivity.
Qed.

(** C7, as stated, fails: [Control] does not dispatch DELETE. *)
Lemma control_rejects_delete : ~ dispatches ControlSurface "DELETE".
Proof.
  intros H.
  destruct (H (answer_all (inl not_found) true) control0 "/route/r1" None)
    as (req & Hsent & _).
  vm_compute in Hsent. discriminate Hsent.
Qed.

(** C10: with GET or DELETE the [data] argument plays no part: the outcome
    is the one of the call without data, and no recorded call has a
    body. *)
Theorem get_and_delete_ignore_data s env self method endpoint data :
  upper method = "GET" \/ upper method = "DELETE" ->
  make_request s env method endpoint data self =
    make_request s env method endpoint None self /\
  Forall (fun req => requests.json_arg req = None)
    (sent (make_request s env method endpoint data self)).
Proof.
  intros H. rewrite !make_request_eq. unfold verb_of.
  destruct H as [-> | ->]; destruct s; cbn; split;
    try reflexivity; repeat constructor.
Qed.

Lemma get_and_delete_ignore_data_witness :
  Admin._make_request (answer_all (inl not_found) true)
    "delete" "/routes/r1" (Some envelope) admin0 =
  Admin._make_request (answer_all (inl not_found) true)
    "delete" "/routes/r1" None admin0 /\
  Forall (fun req => requests.json_arg req = None)
    (sent (Admin._make_request (answer_all (inl not_found) true)
             "delete" "/routes/r1" (Some envelope) admin0)).
Proof.
  apply (get_and_delete_ignore_data AdminSurface
           (answer_all (inl not_found) true) admin0
           "delete" "/routes/r1" (Some envelope)).
  right. reflexivity.
Defined.

(** ** The instance is left alone *)

Lemma preserves_ret {A} (a : A) : preserves (ret a).
Proof. intros self. reflexivity. Qed.

Lemma preserves_raise {A} e : preserves (@raise A e).
Proof. intros self. reflexivity. Qed.

Lemma preserves_bind {A B} (m : M A) (f : A -> M B) :
  preserves m -> (forall a, preserves (f a)) -> preserves (bind m f).
Proof.
  intros Hm Hf self. unfold bind.
  destruct (result (m self)) as [a|e]; simpl.
  - rewrite Hf. apply Hm.
  - apply Hm.
Qed.

Lemma preserves_py_get v key default : preserves (py_get v key default).
Proof. destruct v; intros self; reflexivity. Qed.

Lemma preserves_unwrap_nodes v : preserves (unwrap_nodes v).
Proof.
  apply preserves_bind; [|intros a]; apply preserves_py_get.
Qed.

Lemma preserves_make_request s env method endpoint data :
  preserves (make_request s env method endpoint data).
Proof.
  intros self. rewrite make_request_eq.
  destruct (verb_of s method); reflexivity.
Qed.

Lemma preserves_admin_make_request env method endpoint data :
  preserves (Admin._make_request env method endpoint data).
Proof. exact (preserves_make_request AdminSurface env method endpoint data). Qed.

Lemma preserves_control_make_request env method endpoint data :
  preserves (Control._make_request env method endpoint data).
Proof.
  exact (preserves_make_request ControlSurface env method endpoint data).
Qed.

Create HintDb preserve.

#[local] Hint Resolve preserves_ret preserves_raise preserves_bind
  preserves_unwrap_nodes preserves_admin_make_request
  preserves_control_make_request : preserve.

(** Unfolds the public method at the head of the goal and closes it. *)
Ltac preserve_method :=
  lazymatch goal with
  | |- preserves ?m =>
      let rec head t :=
        lazymatch t with
        | ?f _ => head f
        | _ => t
        end in
      let h := head m in
      unfold h;
      repeat match goal with
        | |- context [match ?x with _ => _ end] => destruct x
        end;
      auto with preserve
  end.

Lemma preserves_admin_invoke env c : preserves (Admin.invoke env c).
Proof. destruct c; cbn [Admin.invoke]; preserve_method. Qed.

Lemma preserves_control_invoke env c : preserves (Control.invoke env c).
Proof. destruct c; cbn [Control.invoke]; preserve_method. Qed.

(** C9: whatever the method and whatever its outcome, the instance after the
    call is the instance before it: [base_url], [api_key] and [headers] are
    those [__init__] set. *)
Theorem configuration_is_never_modified env self :
  (forall s method endpoint data,
      self_after (make_request s env method endpoint data self) = self) /\
  (forall c, self_after (Admin.invoke env c self) = self) /\
  (forall c, self_after (Control.invoke env c self) = self).
Proof.
  repeat split; intros.
  - apply preserves_make_request.
  - apply preserves_admin_invoke.
  - apply preserves_control_invoke.
Qed.

(** ** List methods *)

Lemma result_bind_Ok {A B} (m : M A) (f : A -> M B) self a :
  result (m self) = Ok a ->
  self_after (m self) = self ->
  result (bind m f self) = result (f a self).
Proof. unfold bind. intros -> ->. reflexivity. Qed.

Lemma sent_bind_unwrap (m : M json) self :
  sent (bind m unwrap_nodes self) = sent (m self).
Proof.
  unfold bind. destruct (result (m self)) as [v|e]; simpl; [|reflexivity].
  assert (H : sent (unwrap_nodes v (self_after (m self))) = []).
  { unfold unwrap_nodes, bind.
    destruct v; simpl; try reflexivity.
    destruct (dict_get "node" d) as [[]|]; reflexivity. }
  rewrite H. apply app_nil_r.
Qed.

(** Every method of [ListOp] is a GET through its class's dispatcher
    followed by the unwrapping. *)
Lemma run_list_shape env op :
  exists s endpoint,
    run_list env op =
    bind (make_request s env "GET" endpoint None) unwrap_nodes.
Proof.
  destruct op;
    [ exists AdminSurface | exists AdminSurface | exists AdminSurface
    | exists AdminSurface | exists AdminSurface | exists AdminSurface
    | exists AdminSurface | exists AdminSurface | exists AdminSurface
    | exists AdminSurface | exists AdminSurface | exists AdminSurface
    | exists ControlSurface | exists ControlSurface | exists ControlSurface
    | exists ControlSurface ];
    eexists; reflexivity.
Qed.

(** C5, as the code has it: a list method that unwraps makes one GET.  When
    the answer is not an HTTP error and its body parses to an object whose
    ['node'] is an object holding ['nodes'], the method returns that value
    unchanged; when the object has no ['node'], or its ['node'] is an object
    without ['nodes'], it returns the empty list; when the body is not an
    object, or its ['node'] is there and is not an object, it raises
    [AttributeError]. *)
Theorem list_unwraps_envelope env op self :
  exists req,
    sent (run_list env op self) = [req] /\
    requests.method req = requests.GET /\
    forall r v,
      requests.send env req = inl r ->
      ~ (400 <= requests.status_code r < 600)%Z ->
      requests.body r = requests.Parsed v ->
      (forall d d' nodes,
          v = JDict d ->
          dict_get "node" d = Some (JDict d') ->
          dict_get "nodes" d' = Some nodes ->
          result (run_list env op self) = Ok nodes) /\
      (forall d,
          v = JDict d ->
          dict_get "node" d = None ->
          result (run_list env op self) = Ok (JList [])) /\
      (forall d d',
          v = JDict d ->
          dict_get "node" d = Some (JDict d') ->
          dict_get "nodes" d' = None ->
          result (run_list env op self) = Ok (JList [])) /\
      (is_dict v = false ->
       exists msg,
         result (run_list env op self) = Raise (AttributeError msg)) /\
      (forall d node,
          v = JDict d ->
          dict_get "node" d = Some node ->
          is_dict node = false ->
          exists msg,
            result (run_list env op self) = Raise (AttributeError msg)).
Proof.
  destruct (run_list_shape env op) as (s & endpoint & ->).
  exists (build_request self requests.GET endpoint None).
  rewrite sent_bind_unwrap, sent_make_request.
  assert (Hv : verb_of s "GET" = Some requests.GET) by (destruct s; reflexivity).
  rewrite Hv. split; [reflexivity|]. split; [reflexivity|].
  intros r v Hsend Hcode Hbody.
  assert (Hres : result (make_request s env "GET" endpoint None self) = Ok v).
  { rewrite result_make_request, Hv, Hsend. unfold settle.
    rewrite (status_error_none r Hcode), Hbody. reflexivity. }
  pose proof (preserves_make_request s env "GET" endpoint None self) as Hself.
  rewrite (result_bind_Ok _ unwrap_nodes self _ Hres Hself).
  unfold unwrap_nodes, bind, py_get.
  repeat split.
  - intros d d' nodes -> Hnode Hnodes. simpl. rewrite Hnode. simpl.
    rewrite Hnodes. reflexivity.
  - intros d -> Hnode. simpl. rewrite Hnode. reflexivity.
  - intros d d' -> Hnode Hnodes. simpl. rewrite Hnode. simpl.
    rewrite Hnodes. reflexivity.
  - intros Hd. destruct v; try discriminate Hd; eexists; reflexivity.
  - intros d node -> Hnode Hd. simpl. rewrite Hnode.
    destruct node; try discriminate Hd; eexists; reflexivity.
Qed.

Lemma list_unwraps_envelope_witness :
  result (Admin.list_routes
            (answer_all
               (inl (ok_response "http://localhost:9180/apisix/admin/routes"
                       envelope_text envelope)) true)
            admin0) = Ok (JList two_nodes) /\
  result (Control.list_routes
            (answer_all
               (inl (ok_response "http://localhost:9090/v1/routes"
                       "{}" (JDict []))) true)
            control0) = Ok (JList []).
Proof.
  split.
  - destruct (list_unwraps_envelope
                (answer_all
                   (inl (ok_response
                           "http://localhost:9180/apisix/admin/routes"
                           envelope_text envelope)) true)
                Admin_list_routes admin0) as (req & _ & _ & H).
    refine (proj1 (H _ envelope eq_refl _ eq_refl)
              [("node", JDict [("nodes", JList two_nodes)])]
              [("nodes", JList two_nodes)] (JList two_nodes)
              eq_refl eq_refl eq_refl).
    simpl. lia.
  - destruct (list_unwraps_envelope
                (answer_all
                   (inl (ok_response "http://localhost:9090/v1/routes"
                           "{}" (JDict []))) true)
                Control_list_routes control0) as (req & _ & _ & H).
    refine (proj1 (proj2 (H _ (JDict []) eq_refl _ eq_refl))
              [] eq_refl eq_refl).
    simpl. lia.
Defined.

(** C5, as stated, fails: a body whose ['node'] is [null] has no envelope,
    and the list method raises instead of returning the empty list. *)
Lemma null_node_is_not_an_empty_list :
  ~ returns_nodes_or_empty
      (Admin.list_routes (answer_all (inl null_node) true) admin0)
      (JDict [("node", JNull)]).
Proof.
  unfold returns_nodes_or_empty. vm_compute. discriminate.
Qed.

Example list_routes_node_null :
  result (Admin.list_routes (answer_all (inl null_node) true) admin0)
  = Raise (AttributeError "'NoneType' object has no attribute 'get'").
Proof. reflexivity. Qed.

Example list_routes_array_body :
  result (Admin.list_routes (answer_all (inl array_body) true) admin0)
  = Raise (AttributeError "'list' object has no attribute 'get'").
Proof. reflexivity. Qed.

(** C3 at a failing input: [list_consumer_credentials] hands back the whole
    envelope where [list_routes], given the same answer, hands back the
    inner list. *)
Theorem list_consumer_credentials_keeps_envelope :
  result (Admin.list_consumer_credentials credentials_env "jack" admin0)
    = Ok envelope /\
  result (Admin.list_routes credentials_env admin0) = Ok (JList two_nodes).
Proof. split; reflexivity. Qed.

(** [list_consumer_credentials] returns the parsed body as it is. *)
Lemma list_consumer_credentials_returns_body env username self req r v :
  sent (Admin.list_consumer_credentials env username self) = [req] ->
  requests.send env req = inl r ->
  ~ (400 <= requests.status_code r < 600)%Z ->
  requests.body r = requests.Parsed v ->
  result (Admin.list_consumer_credentials env username self) = Ok v.
Proof.
  unfold Admin.list_consumer_credentials.
  change (Admin._make_request env) with (make_request AdminSurface env).
  intros Hsent Hsend Hcode Hbody.
  rewrite (result_of_sent _ _ _ _ _ _ _ Hsent), Hsend. unfold settle.
  rewrite (status_error_none r Hcode), Hbody. reflexivity.
Qed.

(** ** The [ttl] query parameter *)

Lemma append_assoc (a b c : string) : (a ++ b) ++ c = a ++ b ++ c.
Proof.
  induction a as [|x a IH]; simpl; [reflexivity | rewrite IH; reflexivity].
Qed.

Lemma append_nil_r (a : string) : a ++ "" = a.
Proof.
  induction a as [|x a IH]; simpl; [reflexivity | rewrite IH; reflexivity].
Qed.

(** The segments of a [ttl] method, each behind a slash, bring the
    question marks they have and no other. *)
Lemma count_char_segments segs :
  count_char qmark (fold_right (fun seg acc => "/" ++ seg ++ acc) "" segs) =
  list_sum (map (count_char qmark) segs).
Proof.
  induction segs as [|seg segs IH]; [reflexivity|].
  cbn [fold_right map list_sum]. rewrite !count_char_app, IH. reflexivity.
Qed.

(** The calls of the four methods: without [ttl] the URL is the base URL,
    [/routes] and the segments; with [ttl] the query string follows. *)
Lemma run_ttl_urls env self op :
  exists req0,
    sent (run_ttl env op None self) = [req0] /\
    requests.url req0 =
      base_url self ++ "/routes"
      ++ fold_right (fun seg acc => "/" ++ seg ++ acc) "" (ttl_segments op) /\
    forall n, exists req,
      sent (run_ttl env op (Some n) self) = [req] /\
      requests.url req = requests.url req0 ++ "?ttl=" ++ str_int n.
Proof.
  destruct op as [cfg | id cfg | id path cfg | id cfg];
    cbn [run_ttl ttl_segments fold_right];
    unfold Admin.create_route, Admin.update_route,
      Admin.update_route_with_path, Admin.create_route_with_id;
    change (Admin._make_request env) with (make_request AdminSurface env);
    eexists; (split; [rewrite sent_make_request; reflexivity|]);
    (split;
     [| intros n; eexists; split; [rewrite sent_make_request; reflexivity|]]);
    cbn [build_request requests.url];
    cbn [lstrip append Ascii.eqb Bool.eqb slash];
    rewrite ?append_assoc, ?append_nil_r;
    cbn [append]; rewrite ?append_assoc; cbn [append]; reflexivity.
Qed.

(** C8, as the code has it: each of the four methods with a [ttl]
    parameter makes one call.  With [ttl=n] its URL is the URL of the call
    without [ttl] followed by [?ttl=n], so that [ttl=60] gives a URL that
    contains [?ttl=60].  Without [ttl] the method adds no query string: the
    URL is the base URL, [/routes] and the segments the caller supplies,
    each behind a slash, and it has as many question marks as the base URL
    and those segments have. *)
Theorem ttl_query_string env self op :
  exists req0,
    sent (run_ttl env op None self) = [req0] /\
    requests.url req0 =
      base_url self ++ "/routes"
      ++ fold_right (fun seg acc => "/" ++ seg ++ acc) "" (ttl_segments op) /\
    count_char qmark (requests.url req0) =
      count_char qmark (base_url self)
      + list_sum (map (count_char qmark) (ttl_segments op)) /\
    (forall n, exists req,
        sent (run_ttl env op (Some n) self) = [req] /\
        requests.url req = requests.url req0 ++ "?ttl=" ++ str_int n) /\
    (exists req,
        sent (run_ttl env op (Some 60%Z) self) = [req] /\
        contains "?ttl=60" (requests.url req) = true).
Proof.
  destruct (run_ttl_urls env self op) as (req0 & Hsent & Hurl & Httl).
  exists req0. repeat split; try assumption.
  - rewrite Hurl, !count_char_app, count_char_segments. reflexivity.
  - destruct (Httl 60%Z) as (req & Hs & Hu).
    exists req. split; [exact Hs|]. rewrite Hu.
    change ("?ttl=" ++ str_int 60) with ("?ttl=60" ++ "").
    apply contains_app.
Qed.

(** C8, as stated, fails: without [ttl], an identifier with a question
    mark gives a URL with a query string. *)
Lemma identifier_query_gives_query_string :
  ~ no_query_string
      (Admin.create_route_with_id credentials_env "r1?x=1" sample_route None
         admin0).
Proof.
  intros (req & Hsent & Hclean).
  vm_compute in Hsent. injection Hsent as <-.
  vm_compute in Hclean. discriminate Hclean.
Qed.

Example identifier_query_url :
  map requests.url
    (sent (Admin.create_route_with_id credentials_env "r1?x=1" sample_route
             None admin0))
  = ["http://localhost:9180/apisix/admin/routes/r1?x=1"].
Proof. reflexivity. Qed.

Example create_route_ttl_60 :
  map requests.url
    (sent (Admin.create_route credentials_env sample_route (Some 60%Z) admin0))
  = ["http://localhost:9180/apisix/admin/routes?ttl=60"].
Proof. reflexivity. Qed.

Example update_route_no_ttl :
  map requests.url
    (sent (Admin.update_route credentials_env "r1" sample_route None admin0))
  = ["http://localhost:9180/apisix/admin/routes/r1"].
Proof. reflexivity. Qed.

(** * Further properties *)

(** ** Construction and URL joining *)

Lemma rstrip_slashes n : rstrip slash (slashes n) = "".
Proof. induction n as [|n IH]; simpl; [reflexivity | rewrite IH; reflexivity]. Qed.

Lemma rstrip_app_slashes s n :
  rstrip slash (s ++ slashes n) = rstrip slash s.
Proof.
  induction s as [|a s IH]; simpl.
  - apply rstrip_slashes.
  - rewrite IH. reflexivity.
Qed.

Lemma lstrip_slashes_app n s :
  lstrip slash (slashes n ++ s) = lstrip slash s.
Proof. induction n as [|n IH]; simpl; [reflexivity | exact IH]. Qed.

Lemma rstrip_decompose s : exists n, s = rstrip slash s ++ slashes n.
Proof.
  induction s as [|a s (n & IH)].
  - exists 0. reflexivity.
  - simpl. destruct (rstrip slash s) as [|b r] eqn:R.
    + destruct (Ascii.eqb a slash) eqn:E.
      * apply Ascii.eqb_eq in E. subst a. exists (S n).
        simpl in IH. rewrite IH at 1. reflexivity.
      * exists n. simpl in *. rewrite <- IH. reflexivity.
    + exists n. simpl in *. rewrite <- IH. reflexivity.
Qed.

(** X1: [__init__] keeps the base URL up to its trailing slashes, which it
    drops, stores the key, and builds the two headers from it. *)
Theorem init_normalises s base key :
  (exists n, base = base_url (init s base key) ++ slashes n) /\
  ends_with slash (base_url (init s base key)) = false /\
  api_key (init s base key) = key /\
  headers (init s base key) =
    [("Content-Type", "application/json"); ("X-API-KEY", key)].
Proof.
  destruct s; cbn [init Admin.__init__ Control.__init__ new_client
                   base_url api_key headers];
    (split; [apply rstrip_decompose |]);
    (split; [apply rstrip_not_ends_with |]); split; reflexivity.
Qed.

(** X2: trailing slashes on the base URL make no difference to the instance
    that is built. *)
Theorem init_ignores_trailing_slashes s base key n :
  init s (base ++ slashes n) key = init s base key.
Proof.
  destruct s; unfold init, Admin.__init__, Control.__init__, new_client;
    rewrite rstrip_app_slashes; reflexivity.
Qed.

(** X3: leading slashes on the endpoint make no difference to what
    [_make_request] does. *)
Theorem make_request_ignores_leading_slashes
    s env method endpoint data self n :
  make_request s env method (slashes n ++ endpoint) data self =
  make_request s env method endpoint data self.
Proof.
  rewrite !make_request_eq. unfold build_request.
  rewrite lstrip_slashes_app. reflexivity.
Qed.

(** ** Every public method *)

(** Each public method is one [_make_request] of its class with a verb the
    class supports, followed by the unwrapping for the list methods. *)
Lemma invoke_public_shape env pc :
  exists verb endpoint data,
    accepts (surface_of pc) verb = true /\
    invoke_public env pc =
    if unwraps pc
    then bind (make_request (surface_of pc) env verb endpoint data)
           unwrap_nodes
    else make_request (surface_of pc) env verb endpoint data.
Proof.
  destruct pc as [c|c]; destruct c;
    cbn [invoke_public Admin.invoke Control.invoke unwraps surface_of];
    lazymatch goal with
    | |- exists _ _ _, _ /\ ?m = _ =>
        let rec head t :=
          lazymatch t with
          | ?f _ => head f
          | _ => t
          end in
        let h := head m in
        unfold h
    end;
    repeat match goal with
      | |- context [match ?x with _ => _ end] => destruct x
      end;
    do 3 eexists; (split; [|reflexivity]); reflexivity.
Qed.

Lemma accepts_verb_of s verb :
  accepts s verb = true -> exists v, verb_of s verb = Some v.
Proof.
  unfold accepts. destruct (verb_of s verb) as [v|]; [|discriminate].
  exists v. reflexivity.
Qed.

Lemma sent_unwrap_nodes v self : sent (unwrap_nodes v self) = [].
Proof.
  unfold unwrap_nodes, bind. destruct v; simpl; try reflexivity.
  destruct (dict_get "node" d) as [[]|]; reflexivity.
Qed.

(** The call a public method makes, and what becomes of the answer. *)
Lemma invoke_public_outcome env pc self :
  exists req,
    sent (invoke_public env pc self) = [req] /\
    requests.headers req = headers self /\
    (exists endpoint,
        requests.url req = base_url self ++ "/" ++ lstrip slash endpoint) /\
    List.In (requests.method req) (verbs (surface_of pc)) /\
    result (invoke_public env pc self) =
    match settle env (requests.send env req) with
    | Ok v => if unwraps pc then result (unwrap_nodes v self) else Ok v
    | Raise e => Raise e
    end.
Proof.
  destruct (invoke_public_shape env pc) as (verb & endpoint & data & Hacc & ->).
  destruct (accepts_verb_of _ _ Hacc) as (v & Hv).
  exists (build_request self v endpoint data).
  assert (Hin : List.In v (verbs (surface_of pc))).
  { unfold verb_of in Hv. apply find_some in Hv. apply Hv. }
  destruct (unwraps pc).
  - rewrite sent_bind_unwrap, sent_make_request, Hv.
    repeat split; try reflexivity; [eexists; reflexivity | exact Hin |].
    unfold bind at 1.
    rewrite result_make_request, Hv.
    destruct (settle env _) as [w|e]; [|reflexivity].
    rewrite preserves_make_request. reflexivity.
  - rewrite sent_make_request, result_make_request, Hv.
    repeat split; try reflexivity; [eexists; reflexivity | exact Hin |].
    destruct (settle env _); reflexivity.
Qed.

Lemma settle_success env r v :
  ~ (400 <= requests.status_code r < 600)%Z ->
  requests.body r = requests.Parsed v ->
  settle env (inl r) = Ok v.
Proof.
  intros Hcode Hbody. unfold settle.
  rewrite (status_error_none r Hcode), Hbody. reflexivity.
Qed.



(** X4: every public method of either class makes exactly one call into
    [requests]: with a function its class dispatches, to a URL that is the
    instance's base URL, one slash and a path that does not begin with a
    slash. *)
Theorem public_method_sends_one_request env pc self :
  exists req,
    sent (invoke_public env pc self) = [req] /\
    List.In (requests.method req) (verbs (surface_of pc)) /\
    exists path,
      requests.url req = base_url self ++ "/" ++ path /\
      starts_with slash path = false.
Proof.
  destruct (invoke_public_outcome env pc self)
    as (req & Hsent & _ & (endpoint & Hurl) & Hin & _).
  exists req. repeat split; try assumption.
  exists (lstrip slash endpoint). split;
    [exact Hurl | apply lstrip_not_starts_with].
Qed.

(** X5: on an instance built by [__init__], the call of every public method
    carries the JSON content type and the API key given at construction. *)
Theorem public_method_sends_api_key env pc base key :
  Forall
    (fun req =>
       requests.headers req =
       [("Content-Type", "application/json"); ("X-API-KEY", key)])
    (sent (invoke_public env pc (init (surface_of pc) base key))).
Proof.
  destruct (invoke_public_outcome env pc (init (surface_of pc) base key))
    as (req & -> & Hh & _).
  constructor; [|constructor]. rewrite Hh.
  destruct (surface_of pc); reflexivity.
Qed.



(** X7: a public method that does not unwrap returns the parsed body of
    the response unchanged whenever the status is outside 400..599, be it
    2xx or not. *)
Theorem public_method_returns_body env pc self req r v :
  unwraps pc = false ->
  sent (invoke_public env pc self) = [req] ->
  requests.send env req = inl r ->
  ~ (400 <= requests.status_code r < 600)%Z ->
  requests.body r = requests.Parsed v ->
  result (invoke_public env pc self) = Ok v.
Proof.
  intros Hu Hsent Hsend Hcode Hbody.
  destruct (invoke_public_outcome env pc self)
    as (req' & Hsent' & _ & _ & _ & ->).
  rewrite Hsent' in Hsent. injection Hsent as ->.
  rewrite Hsend, (settle_success env r v Hcode Hbody), Hu. reflexivity.
Qed.

Lemma public_method_returns_body_witness :
  result (Admin.create_route (answer_all (inl created) true)
            sample_route None admin0)
  = Ok sample_route.
Proof.
  refine (public_method_returns_body (answer_all (inl created) true)
            (AdminCall (Admin.call_create_route sample_route None)) admin0
            (build_request admin0 requests.POST "/routes" (Some sample_route))
            created sample_route eq_refl eq_refl eq_refl _ eq_refl).
  simpl. lia.
Defined.



(** X9: a list method that unwraps raises [AttributeError] when the parsed
    body is not an object, and when its ['node'] is present and is not an
    object. *)
Theorem list_method_needs_objects env pc self req r v :
  unwraps pc = true ->
  sent (invoke_public env pc self) = [req] ->
  requests.send env req = inl r ->
  ~ (400 <= requests.status_code r < 600)%Z ->
  requests.body r = requests.Parsed v ->
  (is_dict v = false ->
   exists msg, result (invoke_public env pc self) = Raise (AttributeError msg))
  /\
  (forall d node,
      v = JDict d -> dict_get "node" d = Some node -> is_dict node = false ->
      exists msg,
        result (invoke_public env pc self) = Raise (AttributeError msg)).
Proof.
  intros Hu Hsent Hsend Hcode Hbody.
  destruct (invoke_public_outcome env pc self)
    as (req' & Hsent' & _ & _ & _ & ->).
  rewrite Hsent' in Hsent. injection Hsent as ->.
  rewrite Hsend, (settle_success env r v Hcode Hbody), Hu.
  unfold unwrap_nodes, bind, py_get. split.
  - intros Hv. destruct v; try discriminate Hv; eexists; reflexivity.
  - intros d node -> Hnode Hd. simpl. rewrite Hnode.
    destruct node; try discriminate Hd; eexists; reflexivity.
Qed.

Lemma list_method_needs_objects_witness :
  exists msg,
    result (Admin.list_routes (answer_all (inl array_body) true) admin0)
    = Raise (AttributeError msg).
Proof.
  refine (proj1 (list_method_needs_objects
                   (answer_all (inl array_body) true)
                   (AdminCall Admin.call_list_routes) admin0
                   (build_request admin0 requests.GET "/routes" None)
                   array_body (JList [])
                   eq_refl eq_refl eq_refl _ eq_refl) eq_refl).
  simpl. lia.
Defined.

(** X10: when the status is outside 400..599 and the body is not JSON, a
    public method fails: with [ConnectionError] where [Response.json()]
    raises an exception of [requests], with the decoder's [JSONDecodeError]
    otherwise. *)
Theorem public_method_on_malformed_body env pc self req r err :
  sent (invoke_public env pc self) = [req] ->
  requests.send env req = inl r ->
  ~ (400 <= requests.status_code r < 600)%Z ->
  requests.body r = requests.Malformed err ->
  result (invoke_public env pc self) =
  if requests.json_errors_wrapped env
  then Raise (ConnectionError ("Error connecting to APISIX: " ++ err)
                {| requests.kind := requests.JSONDecodeError_;
                   requests.str := err;
                   requests.response := None |})
  else Raise (JSONDecodeError err).
Proof.
  intros Hsent Hsend Hcode Hbody.
  destruct (invoke_public_outcome env pc self)
    as (req' & Hsent' & _ & _ & _ & ->).
  rewrite Hsent' in Hsent. injection Hsent as ->.
  rewrite Hsend. unfold settle.
  rewrite (status_error_none r Hcode), Hbody.
  destruct (requests.json_errors_wrapped env); reflexivity.
Qed.

Lemma public_method_on_malformed_body_witness :
  result (Admin.delete_route (answer_all (inl html_page) false) "r1" admin0)
  = Raise (JSONDecodeError "Expecting value: line 1 column 1 (char 0)").
Proof.
  refine (public_method_on_malformed_body
            (answer_all (inl html_page) false)
            (AdminCall (Admin.call_delete_route "r1")) admin0
            (build_request admin0 requests.DELETE "/routes/r1" None)
            html_page "Expecting value: line 1 column 1 (char 0)"
            eq_refl eq_refl _ eq_refl).
  simpl. lia.
Defined.

(** ** The dispatchers, continued *)

(** A verb that is matched is matched again once in capitals. *)
Lemma verb_of_upper s method v :
  verb_of s method = Some v -> verb_of s (upper method) = Some v.
Proof.
  intros Hv. pose proof (verb_of_name _ _ _ Hv) as Hname.
  unfold verb_of in Hv. apply find_some in Hv as [Hin _].
  rewrite <- Hname.
  destruct s, v; simpl in Hin; try reflexivity;
    exfalso; intuition discriminate.
Qed.

Lemma verb_of_control_admin method v :
  verb_of ControlSurface method = Some v ->
  verb_of AdminSurface method = Some v.
Proof.
  unfold verb_of, verbs, find, method_name.
  destruct (upper method =? "GET"); [trivial|].
  destruct (upper method =? "POST"); [trivial|].
  destruct (upper method =? "PUT"); [trivial | discriminate].
Qed.

(** X11: the verb is matched without regard to case: for a verb its class
    supports, [_make_request] does the same with the verb as given and with
    the verb in capitals. *)
Theorem make_request_ignores_verb_case s env method endpoint data self :
  accepts s method = true ->
  make_request s env (upper method) endpoint data self =
  make_request s env method endpoint data self.
Proof.
  intros Hacc. destruct (accepts_verb_of _ _ Hacc) as (v & Hv).
  rewrite !make_request_eq, (verb_of_upper _ _ _ Hv), Hv. reflexivity.
Qed.

Lemma make_request_ignores_verb_case_witness :
  Admin._make_request credentials_env "PATCH" "/routes/r1"
    (Some sample_route) admin0 =
  Admin._make_request credentials_env "Patch" "/routes/r1"
    (Some sample_route) admin0.
Proof.
  apply (make_request_ignores_verb_case AdminSurface credentials_env
           "Patch" "/routes/r1" (Some sample_route) admin0).
  reflexivity.
Defined.

Lemma control_dispatcher_agrees env method endpoint data self :
  accepts ControlSurface method = true ->
  Control._make_request env method endpoint data self =
  Admin._make_request env method endpoint data self.
Proof.
  intros Hacc. destruct (accepts_verb_of _ _ Hacc) as (v & Hv).
  change (make_request ControlSurface env method endpoint data self =
          make_request AdminSurface env method endpoint data self).
  rewrite !make_request_eq, Hv, (verb_of_control_admin _ _ Hv). reflexivity.
Qed.

(** X12: on the verbs [Control] supports, the two dispatchers are the same
    function of the instance's attributes. *)
Theorem control_dispatcher_agrees_with_admin env method endpoint data self :
  accepts ControlSurface method = true ->
  Control._make_request env method endpoint data self =
  Admin._make_request env method endpoint data self.
Proof.
  apply control_dispatcher_agrees.
Qed.

Lemma control_dispatcher_agrees_with_admin_witness :
  Control._make_request credentials_env "post" "/gc" None control0 =
  Admin._make_request credentials_env "post" "/gc" None control0.
Proof.
  apply (control_dispatcher_agrees_with_admin credentials_env
           "post" "/gc" None control0).
  reflexivity.
Defined.

(** X13: the methods both classes define on the same path do the same on
    equal attributes. *)
Theorem shared_methods_agree env self :
  Control.list_routes env self = Admin.list_routes env self /\
  Control.list_services env self = Admin.list_services env self /\
  Control.list_upstreams env self = Admin.list_upstreams env self /\
  Control.reload_plugins env self = Admin.reload_plugins env self /\
  forall plugin_name,
    Control.get_plugin_metadata env plugin_name self =
    Admin.get_plugin_metadata env plugin_name self.
Proof.
  repeat split; try intros plugin_name;
    unfold Control.list_routes, Admin.list_routes, Control.list_services,
      Admin.list_services, Control.list_upstreams, Admin.list_upstreams,
      Control.reload_plugins, Admin.reload_plugins,
      Control.get_plugin_metadata, Admin.get_plugin_metadata, bind;
    rewrite ?(control_dispatcher_agrees env "GET"),
            ?(control_dispatcher_agrees env "PUT"); reflexivity.
Qed.

(** X14: path parameters go into the URL as they are.  A path given apart
    and a path appended to the identifier are the same call, and so are a
    [ttl] given apart and a query string appended to the identifier. *)
Theorem path_parameters_are_not_escaped env route_id route_path cfg ttl n :
  Admin.update_route_with_path env route_id route_path cfg ttl =
  Admin.update_route env (route_id ++ "/" ++ route_path) cfg ttl /\
  Admin.create_route_with_id env (route_id ++ "?ttl=" ++ str_int n) cfg None =
  Admin.create_route_with_id env route_id cfg (Some n).
Proof.
  unfold Admin.update_route_with_path, Admin.update_route,
    Admin.create_route_with_id.
  split; [destruct ttl|]; rewrite ?append_assoc; reflexivity.
Qed.

(** X15: the request a dispatcher records is made with the function of
    the verb in capitals, and with any verb but GET and DELETE its
    [json=] argument is the [data] argument. *)
Theorem make_request_passes_data s env method endpoint data self req :
  sent (make_request s env method endpoint data self) = [req] ->
  method_name (requests.method req) = upper method /\
  (upper method <> "GET" -> upper method <> "DELETE" ->
   requests.json_arg req = data).
Proof.
  rewrite sent_make_request.
  destruct (verb_of s method) as [v|] eqn:Hv; [|discriminate].
  intros [= <-]. pose proof (verb_of_name _ _ _ Hv) as Hname.
  split; [exact Hname|].
  intros Hget Hdel. rewrite <- Hname in Hget, Hdel.
  destruct v; try reflexivity; exfalso; [apply Hget | apply Hdel]; reflexivity.
Qed.

Lemma make_request_passes_data_witness :
  requests.json_arg
    (build_request admin0 requests.PUT "/routes/r1" (Some sample_route))
  = Some sample_route.
Proof.
  refine (proj2 (make_request_passes_data AdminSurface credentials_env
                   "put" "/routes/r1" (Some sample_route) admin0
                   (build_request admin0 requests.PUT "/routes/r1"
                      (Some sample_route)) eq_refl) _ _);
    discriminate.
Defined.
